(** * kazoo-sdk: the request objects of [kazoo/request_objects.py]

    A shallow embedding of [KazooRequest], [UsernamePasswordAuthRequest]
    and [ApiKeyAuthRequest], together with the properties their
    specification states about them.

    Conventions.  A Python [str] is a [string], read as the UTF-8 bytes of
    the text, so that [str.encode] is the identity on it.  A keyword
    dictionary ([**kwargs], the request headers) is a [gmap] keyed by
    strings.  A decoded JSON document is a [pyval]; its objects keep the
    order of their members, as Python dictionaries do. *)

From Stdlib Require Import ZArith List Ascii String Bool Lia.
From Stdlib Require Import SpecFloat DecimalString.
From stdpp Require Import base option gmap strings.

Import ListNotations.
Set Warnings "-register-all".
Local Open Scope string_scope.
Local Open Scope list_scope.

(* ===================================================================== *)
(** ** Characters and strings *)
(* ===================================================================== *)

Module PyStr.

(** [str.lower] on the ASCII range; bytes of multi-byte UTF-8 sequences
    are left as they are. *)
Definition lower_ascii (c : ascii) : ascii :=
  let n := nat_of_ascii c in
  if (65 <=? n)%nat && (n <=? 90)%nat then ascii_of_nat (n + 32) else c.

Fixpoint lower (s : string) : string :=
  match s with
  | EmptyString => EmptyString
  | String c s' => String (lower_ascii c) (lower s')
  end.

(** The character class [[a-zA-Z0-9_]] of the parameter pattern. *)
Definition is_param_char (c : ascii) : bool :=
  let n := nat_of_ascii c in
  ((97 <=? n)%nat && (n <=? 122)%nat)
  || ((65 <=? n)%nat && (n <=? 90)%nat)
  || ((48 <=? n)%nat && (n <=? 57)%nat)
  || (n =? 95)%nat.

Definition lbrace : ascii := "{"%char.
Definition rbrace : ascii := "}"%char.

Definition chars (s : string) : list ascii := list_ascii_of_string s.
Definition of_chars (l : list ascii) : string := string_of_list_ascii l.

End PyStr.

(* ===================================================================== *)
(** ** The parameter pattern [{([a-zA-Z0-9_]+)}] *)
(* ===================================================================== *)

Module ParamRegex.
Import PyStr.

(** The greedy run [[a-zA-Z0-9_]*] at the head of the input, with what
    follows it. *)
Fixpoint span_param (l : list ascii) : list ascii * list ascii :=
  match l with
  | c :: l' =>
      if is_param_char c
      then let '(w, r) := span_param l' in (c :: w, r)
      else ([], l)
  | [] => ([], [])
  end.

(** One attempt of the pattern at the head of the input: an opening
    brace, one or more pattern characters, a closing brace.  The result
    is the captured group and the number of characters the match is
    longer than its opening brace. *)
Definition match_here (l : list ascii) : option (list ascii * nat) :=
  match l with
  | c :: l' =>
      if Ascii.eqb c lbrace then
        match span_param l' with
        | (w, d :: _) =>
            if negb (Nat.eqb (length w) 0) && Ascii.eqb d rbrace
            then Some (w, S (length w))
            else None
        | (_, []) => None
        end
      else None
  | [] => None
  end.

(** [findall]: scan from left to right; where the pattern matches,
    record the group and resume after the match, otherwise move one
    character on.  [skip] counts the characters of the last match that
    are still to be passed over. *)
Fixpoint findall_from (skip : nat) (l : list ascii) : list (list ascii) :=
  match l with
  | [] => []
  | _ :: l' =>
      match skip with
      | S k => findall_from k l'
      | O =>
          match match_here l with
          | Some (w, n) => w :: findall_from n l'
          | None => findall_from 0 l'
          end
      end
  end.

Definition findall (s : string) : list string :=
  map of_chars (findall_from 0 (chars s)).

End ParamRegex.

Definition _get_params_from_path (path : string) : list string :=
  ParamRegex.findall path.

(* ===================================================================== *)
(** ** [hashlib.md5] *)
(* ===================================================================== *)

(** MD5 as RFC 1321 defines it, on 32-bit words held in [Z] with the
    wrap-around written out. *)
Module MD5.
Local Open Scope Z_scope.

Definition w32 (x : Z) : Z := x mod 2 ^ 32.
Definition add32 (x y : Z) : Z := w32 (x + y).
Definition not32 (x : Z) : Z := 2 ^ 32 - 1 - x.
Definition rotl32 (x n : Z) : Z :=
  Z.lor (w32 (Z.shiftl x n)) (Z.shiftr x (32 - n)).

(** [floor (2^32 * abs (sin (i + 1)))] for [i] from 0 to 63. *)
Definition K : list Z :=
  [ 3614090360; 3905402710; 606105819; 3250441966;
    4118548399; 1200080426; 2821735955; 4249261313;
    1770035416; 2336552879; 4294925233; 2304563134;
    1804603682; 4254626195; 2792965006; 1236535329;
    4129170786; 3225465664; 643717713; 3921069994;
    3593408605; 38016083; 3634488961; 3889429448;
    568446438; 3275163606; 4107603335; 1163531501;
    2850285829; 4243563512; 1735328473; 2368359562;
    4294588738; 2272392833; 1839030562; 4259657740;
    2763975236; 1272893353; 4139469664; 3200236656;
    681279174; 3936430074; 3572445317; 76029189;
    3654602809; 3873151461; 530742520; 3299628645;
    4096336452; 1126891415; 2878612391; 4237533241;
    1700485571; 2399980690; 4293915773; 2240044497;
    1873313359; 4264355552; 2734768916; 1309151649;
    4149444226; 3174756917; 718787259; 3951481745 ].

(** Per-round left rotations. *)
Definition S : list Z :=
  [ 7; 12; 17; 22; 7; 12; 17; 22; 7; 12; 17; 22; 7; 12; 17; 22;
    5; 9; 14; 20; 5; 9; 14; 20; 5; 9; 14; 20; 5; 9; 14; 20;
    4; 11; 16; 23; 4; 11; 16; 23; 4; 11; 16; 23; 4; 11; 16; 23;
    6; 10; 15; 21; 6; 10; 15; 21; 6; 10; 15; 21; 6; 10; 15; 21 ].

Record state := mk_state { sa : Z; sb : Z; sc : Z; sd : Z }.

Definition init : state :=
  mk_state 1732584193 4023233417 2562383102 271733878.

(** The mixing function and the message word index of round [i]. *)
Definition mix (i : nat) (b c d : Z) : Z * nat :=
  if (i <? 16)%nat then
    (Z.lor (Z.land b c) (Z.land (not32 b) d), i)
  else if (i <? 32)%nat then
    (Z.lor (Z.land d b) (Z.land (not32 d) c), (5 * i + 1) mod 16)%nat
  else if (i <? 48)%nat then
    (Z.lxor (Z.lxor b c) d, (3 * i + 5) mod 16)%nat
  else
    (Z.lxor c (Z.lor b (not32 d)), (7 * i) mod 16)%nat.

Definition round (m : list Z) (st : state) (i : nat) : state :=
  let '(f, g) := mix i (sb st) (sc st) (sd st) in
  let f' := add32 (add32 (add32 f (sa st)) (nth i K 0)) (nth g m 0) in
  mk_state (sd st) (add32 (sb st) (rotl32 f' (nth i S 0))) (sb st) (sc st).

(** One 512-bit block, given as its sixteen little-endian words. *)
Definition compress (st : state) (m : list Z) : state :=
  let st' := fold_left (round m) (seq 0 64) st in
  mk_state (add32 (sa st) (sa st')) (add32 (sb st) (sb st'))
           (add32 (sc st) (sc st')) (add32 (sd st) (sd st')).

(** The little-endian bytes of a word of [n] bytes. *)
Fixpoint le_bytes (n : nat) (x : Z) : list Z :=
  match n with
  | O => []
  | Datatypes.S n' => x mod 256 :: le_bytes n' (x / 256)
  end.

Fixpoint le_word (bs : list Z) : Z :=
  match bs with
  | [] => 0
  | b :: bs' => b + 256 * le_word bs'
  end.

(** Append the bit 1, zeroes up to 56 modulo 64, and the bit length of
    the message on 64 bits. *)
Definition pad (msg : list Z) : list Z :=
  let len := Z.of_nat (length msg) in
  let zeros := Z.to_nat ((55 - len) mod 64) in
  msg ++ [128] ++ repeat 0 zeros ++ le_bytes 8 ((8 * len) mod 2 ^ 64).

(** Cut a byte list into groups of [n > 0]; a shorter rest is dropped.
    [fuel] bounds the number of groups. *)
Fixpoint groups (fuel n : nat) (bs : list Z) : list (list Z) :=
  match fuel with
  | O => []
  | Datatypes.S fuel' =>
      if (length bs <? n)%nat then []
      else firstn n bs :: groups fuel' n (skipn n bs)
  end.

Definition blocks (bs : list Z) : list (list Z) :=
  map (fun blk => map le_word (groups 16 4 blk)) (groups (length bs) 64 bs).

Definition digest (msg : list Z) : list Z :=
  let st := fold_left compress (blocks (pad msg)) init in
  le_bytes 4 (sa st) ++ le_bytes 4 (sb st)
  ++ le_bytes 4 (sc st) ++ le_bytes 4 (sd st).

Definition hex_digit (x : Z) : ascii :=
  if x <? 10 then ascii_of_nat (Z.to_nat (48 + x))
  else ascii_of_nat (Z.to_nat (87 + x)).

Fixpoint hex (bs : list Z) : string :=
  match bs with
  | [] => EmptyString
  | b :: bs' => String (hex_digit (b / 16)) (String (hex_digit (b mod 16)) (hex bs'))
  end.

Definition bytes_of (s : string) : list Z :=
  map (fun c => Z.of_nat (nat_of_ascii c)) (PyStr.chars s).

(** [hashlib.md5(); update(s); hexdigest()] *)
Definition hexdigest (s : string) : string := hex (digest (bytes_of s)).

End MD5.

(* ===================================================================== *)
(** ** Python values, exceptions and effects *)
(* ===================================================================== *)

(** What [json.loads] produces and [json.dumps] accepts.  A float is an
    IEEE 754 double in the Standard Library's [spec_float]. *)
Inductive pyval : Type :=
| PyNone
| PyBool (b : bool)
| PyInt (n : Z)
| PyFloat (f : spec_float)
| PyStr (s : string)
| PyList (l : list pyval)
| PyDict (items : list (string * pyval)).

(** The truth value Python's [if] tests. *)
Definition truthy (v : pyval) : bool :=
  match v with
  | PyNone => false
  | PyBool b => b
  | PyInt n => negb (n =? 0)%Z
  | PyFloat (S754_zero _) => false
  | PyFloat _ => true
  | PyStr s => negb (String.eqb s "")
  | PyList l => match l with [] => false | _ => true end
  | PyDict items => match items with [] => false | _ => true end
  end.

(** [v == s] for a string literal [s]. *)
Definition py_eq_str (v : pyval) (s : string) : bool :=
  match v with
  | PyStr t => String.eqb t s
  | _ => false
  end.

(** Modelled from the spec: the module [kazoo/exceptions.py] that declares
    [KazooApiError], [KazooApiAuthenticationError], [KazooApiBadDataError]
    and [InvalidHttpMethodError] is missing.  An exception carries the
    arguments it is raised with, as the error taxonomy of the specification
    has it.  The other constructors are Python's own exceptions; the
    missing-parameter error of the specification is the [ValueError] that
    [execute] raises. *)
Inductive exn : Type :=
| InvalidHttpMethodError (msg : string)
| ValueError (msg : string)
| KazooApiBadDataError (data : pyval)
| KazooApiAuthenticationError (msg : string)
| KazooApiError (fmt : string) (request_id message : pyval)
| KeyError (key : string)
| IndexError
| TypeError
| AttributeError (name : string)
| JSONDecodeError
| RequestException (what : string).

Definition result (A : Type) : Type := exn + A.

(** The files of a multipart upload: field name and content. *)
Definition pyfiles : Type := list (string * string).

(** What [execute] does to the outside world, in order. *)
Inductive event : Type :=
| EvDebug (fmt : string) (args : list string)
| EvRequest (verb url : string) (headers : gmap string (option string))
            (data : option string) (files : option pyfiles).

(** Computations that log, call the network and may raise. *)
Definition M (A : Type) : Type := list event * result A.

Definition ret {A} (x : A) : M A := ([], inr x).
Definition raise {A} (e : exn) : M A := ([], inl e).
Definition emit (ev : event) : M unit := ([ev], inr tt).
Definition lift {A} (r : result A) : M A := ([], r).

Definition bind {A B} (m : M A) (k : A -> M B) : M B :=
  match m with
  | (t, inl e) => (t, inl e)
  | (t, inr x) => let '(t', r) := k x in (t ++ t', r)
  end.

Declare Scope py_scope.
Delimit Scope py_scope with py.
Notation "x <- m ;; k" := (bind m (fun x => k))
  (at level 100, m at next level, right associativity) : py_scope.
Notation "m ;;; k" := (bind m (fun _ => k))
  (at level 100, right associativity) : py_scope.

Definition trace {A} (m : M A) : list event := fst m.
Definition outcome {A} (m : M A) : result A := snd m.

Definition is_request (ev : event) : bool :=
  match ev with EvRequest _ _ _ _ _ => true | EvDebug _ _ => false end.

(** The network calls of a run. *)
Definition network_calls {A} (m : M A) : list event :=
  List.filter is_request (trace m).

(** [d[key]] for a string key. *)
Fixpoint dict_get (items : list (string * pyval)) (key : string) : option pyval :=
  match items with
  | [] => None
  | (k, v) :: items' => if String.eqb k key then Some v else dict_get items' key
  end.

Definition getitem (v : pyval) (key : string) : result pyval :=
  match v with
  | PyDict items =>
      match dict_get items key with
      | Some x => inr x
      | None => inl (KeyError key)
      end
  | _ => inl TypeError
  end.

(** [key in v] for a string key: a key of a dictionary, an element of a
    list, a substring of a string. *)
Definition contains (v : pyval) (key : string) : result bool :=
  match v with
  | PyDict items => inr (match dict_get items key with Some _ => true | None => false end)
  | PyList l => inr (existsb (fun x => py_eq_str x key) l)
  | PyStr s => inr (match String.index 0 key s with Some _ => true | None => false end)
  | _ => inl TypeError
  end.

(* ===================================================================== *)
(** ** [str.format] *)
(* ===================================================================== *)

(** The format-string interpreter, for templates whose replacement fields
    are a name, an index or empty.  The arguments are strings, which
    format as themselves.  A field with a conversion, a format
    specification, an attribute or an element lookup is outside this
    fragment: the interpreter then answers [None], and the caller hands the
    whole template to the library ([format_rich] below). *)
Module Format.
Import PyStr.

Inductive numbering : Type := NoIndex | Auto (next : nat) | Manual.

(** Where the scanner is: in literal text, after an opening brace, inside
    a field name (kept reversed), after a closing brace in text. *)
Inductive place : Type := Text | Open | Name (rev_name : list ascii) | Close.

Definition is_digit (c : ascii) : bool :=
  let n := nat_of_ascii c in (48 <=? n)%nat && (n <=? 57)%nat.

Definition is_rich (c : ascii) : bool :=
  Ascii.eqb c "."%char || Ascii.eqb c "["%char
  || Ascii.eqb c "!"%char || Ascii.eqb c ":"%char.

Definition index_of (name : list ascii) : nat :=
  fold_left (fun n c => 10 * n + (nat_of_ascii c - 48))%nat name 0%nat.

Definition positional (args : list string) (i : nat) : result string :=
  match nth_error args i with
  | Some v => inr v
  | None => inl IndexError
  end.

Definition keyword (kwargs : gmap string string) (name : string) : result string :=
  match kwargs !! name with
  | Some v => inr v
  | None => inl (KeyError name)
  end.

Definition with_numbering (num : numbering) (r : result string)
  : result (string * numbering) :=
  match r with
  | inl e => inl e
  | inr v => inr (v, num)
  end.

(** The value of one replacement field and the numbering mode after it. *)
Definition field (name : list ascii) (num : numbering)
           (args : list string) (kwargs : gmap string string)
  : option (result (string * numbering)) :=
  match name with
  | [] =>
      match num with
      | Manual =>
          Some (inl (ValueError
            "cannot switch from manual field specification to automatic field numbering"))
      | NoIndex => Some (with_numbering (Auto 1) (positional args 0))
      | Auto n => Some (with_numbering (Auto (S n)) (positional args n))
      end
  | _ :: _ =>
      if forallb is_digit name then
        if (18 <? length name)%nat then None
        else
          match num with
          | Auto _ =>
              Some (inl (ValueError
                "cannot switch from automatic field numbering to manual field specification"))
          | _ => Some (with_numbering Manual (positional args (index_of name)))
          end
      else Some (with_numbering num (keyword kwargs (of_chars name)))
  end.

(** Put [pre] in front of what the rest of the template formats to. *)
Definition emit_text (pre : string) (rest : option (result string))
  : option (result string) :=
  match rest with
  | Some (inr s) => Some (inr (pre ++ s)%string)
  | other => other
  end.

Section Run.
Variable args : list string.
Variable kwargs : gmap string string.

Fixpoint run (w : place) (num : numbering) (l : list ascii)
  : option (result string) :=
  let in_name (acc : list ascii) (c : ascii) (l' : list ascii) :=
    if Ascii.eqb c rbrace then
      match field (rev acc) num args kwargs with
      | None => None
      | Some (inl e) => Some (inl e)
      | Some (inr (v, num')) => emit_text v (run Text num' l')
      end
    else if Ascii.eqb c lbrace then
      Some (inl (ValueError "unexpected '{' in field name"))
    else if is_rich c then None
    else run (Name (c :: acc)) num l'
  in
  match l with
  | [] =>
      match w with
      | Text => Some (inr "")
      | Open => Some (inl (ValueError "Single '{' encountered in format string"))
      | Name _ => Some (inl (ValueError "expected '}' before end of string"))
      | Close => Some (inl (ValueError "Single '}' encountered in format string"))
      end
  | c :: l' =>
      match w with
      | Text =>
          if Ascii.eqb c lbrace then run Open num l'
          else if Ascii.eqb c rbrace then run Close num l'
          else emit_text (String c "") (run Text num l')
      | Close =>
          if Ascii.eqb c rbrace then emit_text "}" (run Text num l')
          else Some (inl (ValueError "Single '}' encountered in format string"))
      | Open =>
          if Ascii.eqb c lbrace then emit_text "{" (run Text num l')
          else in_name [] c l'
      | Name acc => in_name acc c l'
      end
  end.
End Run.

Definition plain (template : string) (args : list string)
           (kwargs : gmap string string) : option (result string) :=
  run args kwargs Text NoIndex (chars template).

End Format.

(* ===================================================================== *)
(** ** The libraries the requests go through *)
(* ===================================================================== *)

(** A [requests.Response], as [execute] reads it.  [headers] is keyed by
    the lower-cased header name, which is how the case-insensitive
    dictionary of the library looks names up; [json] is what
    [raw_response.json()] returns, [None] when decoding the body raises. *)
Record raw_response : Type := mk_response {
  status_code : Z;
  headers : gmap string string;
  content : string;
  json : option pyval
}.

(** The library functions whose results [execute] passes on without
    looking into them. *)
Class Runtime : Type := {
  (** [str.format] on templates outside the fragment of [Format]. *)
  format_rich : string -> list string -> gmap string string -> result string;
  (** [urllib.parse.urlencode] *)
  urlencode : list (string * string) -> string;
  (** [json.dumps] *)
  json_dumps : pyval -> string;
  (** [requests.get], [requests.post], [requests.put] and
      [requests.delete], by name. *)
  requests_call : string -> string -> gmap string (option string) ->
                  option string -> option pyfiles -> result raw_response
}.

Definition str_format `{Runtime} (template : string) (args : list string)
           (kwargs : gmap string string) : result string :=
  match Format.plain template args kwargs with
  | Some r => r
  | None => format_rich template args kwargs
  end.

Definition http_methods : list string := ["get"; "post"; "put"; "delete"].

Definition str_in (s : string) (l : list string) : bool :=
  existsb (String.eqb s) l.

(** [getattr(requests, name)] for a name that passed the method check: of
    the spellings of the four methods, the module has the lower-case ones
    only. *)
Definition getattr_requests (name : string) : result string :=
  if str_in name http_methods then inr name else inl (AttributeError name).

(** [raw_response.json()] *)
Definition response_json (r : raw_response) : result pyval :=
  match json r with
  | Some v => inr v
  | None => inl JSONDecodeError
  end.

(** [raw_response.headers[name]]: the lookup goes by the lower-cased name,
    which is also the key a failure reports. *)
Definition response_header (r : raw_response) (name : string) : result string :=
  match headers r !! PyStr.lower name with
  | Some v => inr v
  | None => inl (KeyError (PyStr.lower name))
  end.

(* ===================================================================== *)
(** ** [class KazooRequest] *)
(* ===================================================================== *)

Module KazooRequest.
Local Open Scope py_scope.

Record t : Type := mk {
  path : string;
  _required_param_names : list string;
  auth_required : bool;
  method : string;
  get_params : option (list (string * string))
}.

Definition __init__ (path : string) (auth_required : bool) (method : string)
           (get_params : option (list (string * string))) : t :=
  {| path := path;
     _required_param_names := _get_params_from_path path;
     auth_required := auth_required;
     method := method;
     get_params := get_params |}.

Definition _get_headers (self : t) (token : option string)
  : gmap string (option string) :=
  let headers : gmap string (option string) :=
    {[ "Content-Type" := Some "application/json" ]} in
  if auth_required self then <[ "X-Auth-Token" := token ]> headers
  else headers.

Definition _get_url_with_variables_replaced `{Runtime} (self : t)
           (params : gmap string string) : result string :=
  str_format (path self) [] params.

Definition _get_url `{Runtime} (self : t) (params : gmap string string)
           (base_url : string) : result string :=
  match _get_url_with_variables_replaced self params with
  | inl e => inl e
  | inr replaced =>
      let url := (base_url ++ replaced)%string in
      match get_params self with
      | Some ((_ :: _) as q) => inr (url ++ "?" ++ urlencode q)%string
      | _ => inr url
      end
  end.

Definition _handle_error (error_data : pyval) : M unit :=
  code <- lift (getitem error_data "error") ;;
  bad <- (if py_eq_str code "400" then lift (contains error_data "data")
          else ret false) ;;
  if (bad : bool) then
    d <- lift (getitem error_data "data") ;;
    raise (KazooApiBadDataError d)
  else
    code' <- lift (getitem error_data "error") ;;
    if py_eq_str code' "401" then
      raise (KazooApiAuthenticationError "Invalid credentials")
    else
      request_id <- lift (getitem error_data "request_id") ;;
      message <- lift (getitem error_data "message") ;;
      raise (KazooApiError
        "There was an error calling the kazoo api, Request ID was %s the error was %s"
        request_id message).

Definition _handle_500_error (raw_response : raw_response) : M unit :=
  request_id <- lift (response_header raw_response "X-Request-Id") ;;
  body <- lift (response_json raw_response) ;;
  message <- (if truthy body then
                body' <- lift (response_json raw_response) ;;
                lift (getitem body' "data")
              else ret (PyStr "There was no error message")) ;;
  raise (KazooApiError
    "Internal Server Error, Request ID was %s message was %s"
    (PyStr request_id) message).

(** The loop over [_required_param_names]. *)
Fixpoint check_required `{Runtime} (names : list string)
         (kwargs : gmap string string) : M unit :=
  match names with
  | [] => ret tt
  | param_name :: names' =>
      match kwargs !! param_name with
      | None =>
          msg <- lift (str_format "keyword argument {0} is required"
                                  [param_name] ∅) ;;
          raise (ValueError msg)
      | Some _ => check_required names' kwargs
      end
  end.

Definition files_truthy (files : option pyfiles) : bool :=
  match files with
  | Some (_ :: _) => true
  | _ => false
  end.

Definition execute `{Runtime} (self : t) (base_url : string)
           (method_arg : option string) (data : pyval)
           (token : option string) (files : option pyfiles)
           (kwargs : gmap string string) : M pyval :=
  let method := match method_arg with
                | None => method self
                | Some m => m
                end in
  (if negb (str_in (PyStr.lower method) http_methods) then
     msg <- lift (str_format "method {0} is not a valid http method"
                             [method] ∅) ;;
     raise (InvalidHttpMethodError msg)
   else ret tt) ;;;
  check_required (_required_param_names self) kwargs ;;;
  full_url <- lift (_get_url self kwargs base_url) ;;
  emit (EvDebug "Making %s request to url %s" [method; full_url]) ;;;
  let headers := _get_headers self token in
  req_func <- lift (getattr_requests method) ;;
  let kw_data := if truthy data
                 then Some (json_dumps (PyDict [("data", data)]))
                 else None in
  let kw_files := if files_truthy files then files else None in
  emit (EvRequest req_func full_url headers kw_data kw_files) ;;;
  raw_response <- lift (requests_call req_func full_url headers kw_data kw_files) ;;
  (if (status_code raw_response =? 500)%Z
   then _handle_500_error raw_response else ret tt) ;;;
  response <- lift (response_json raw_response) ;;
  status <- lift (getitem response "status") ;;
  (if py_eq_str status "error" then
     emit (EvDebug "There was an error, full error text is: %s"
                   [content raw_response]) ;;;
     _handle_error response
   else ret tt) ;;;
  ret response.

End KazooRequest.

(* ===================================================================== *)
(** ** [class UsernamePasswordAuthRequest] and [class ApiKeyAuthRequest] *)
(* ===================================================================== *)

Module UsernamePasswordAuthRequest.
Local Open Scope py_scope.

Record t : Type := mk {
  super : KazooRequest.t;
  username : string;
  password : string;
  account_name : string
}.

Definition __init__ (username password account_name : string) : t :=
  {| super := KazooRequest.__init__ "/user_auth" false "get" None;
     username := username;
     password := password;
     account_name := account_name |}.

Definition _get_hashed_credentials `{Runtime} (self : t) : result string :=
  match str_format "{0}:{1}" [username self; password self] ∅ with
  | inl e => inl e
  | inr s => inr (MD5.hexdigest s)
  end.

Definition execute `{Runtime} (self : t) (base_url : string) : M pyval :=
  credentials <- lift (_get_hashed_credentials self) ;;
  let data := PyDict [("credentials", PyStr credentials);
                      ("account_name", PyStr (account_name self))] in
  KazooRequest.execute (super self) base_url (Some "put") data None None ∅.

End UsernamePasswordAuthRequest.

Module ApiKeyAuthRequest.

Record t : Type := mk {
  super : KazooRequest.t;
  api_key : string
}.

Definition __init__ (api_key : string) : t :=
  {| super := KazooRequest.__init__ "/api_auth" false "get" None;
     api_key := api_key |}.

Definition execute `{Runtime} (self : t) (base_url : string) : M pyval :=
  let data := PyDict [("api_key", PyStr (api_key self))] in
  KazooRequest.execute (super self) base_url (Some "put") data None None ∅.

End ApiKeyAuthRequest.

(* ===================================================================== *)
(** ** A stub transport *)
(* ===================================================================== *)

(** Stand-ins for the libraries, to run [execute] on concrete calls: the
    transport answers every request with one fixed response, and the
    trace of the run counts the calls. *)
Module Stub.

Definition decimal (n : Z) : string :=
  DecimalString.NilZero.string_of_int (Z.to_int n).

Definition quoted (s : string) : string :=
  (String (ascii_of_nat 34) s ++ String (ascii_of_nat 34) EmptyString)%string.

(** A plain rendering of JSON: no escapes in strings, floats by a
    placeholder. *)
Fixpoint dumps (v : pyval) : string :=
  (match v with
   | PyNone => "null"
   | PyBool true => "true"
   | PyBool false => "false"
   | PyInt n => decimal n
   | PyFloat _ => "0.0"
   | PyStr s => quoted s
   | PyList l =>
       "[" ++ (fix elems (l : list pyval) : string :=
                 match l with
                 | [] => ""
                 | x :: l' =>
                     dumps x ++ match l' with
                                | [] => ""
                                | _ :: _ => ", " ++ elems l'
                                end
                 end) l ++ "]"
   | PyDict items =>
       "{" ++ (fix members (l : list (string * pyval)) : string :=
                 match l with
                 | [] => ""
                 | (k, x) :: l' =>
                     quoted k ++ ": " ++ dumps x
                     ++ match l' with
                        | [] => ""
                        | _ :: _ => ", " ++ members l'
                        end
                 end) items ++ "}"
   end)%string.

Fixpoint query (q : list (string * string)) : string :=
  (match q with
   | [] => ""
   | (k, v) :: q' =>
       k ++ "=" ++ v ++ match q' with
                        | [] => ""
                        | _ :: _ => "&" ++ query q'
                        end
   end)%string.

Definition runtime (answer : result raw_response) : Runtime :=
  {| format_rich := fun _ _ _ => inl (ValueError "unsupported format string");
     urlencode := query;
     json_dumps := dumps;
     requests_call := fun _ _ _ _ _ => answer |}.

Definition answer (status : Z) (hdrs : list (string * string))
           (body : option pyval) : result raw_response :=
  inr {| status_code := status;
         headers := list_to_map hdrs;
         content := "";
         json := body |}.

End Stub.

(* ===================================================================== *)
(** ** Notions the properties are stated with *)
(* ===================================================================== *)

(** [name] is a [{name}] token of [path]: a non-empty run of letters,
    digits and underscores between braces, somewhere in the template. *)
Definition is_token (name path : string) : Prop :=
  name <> ""
  /\ forallb PyStr.is_param_char (PyStr.chars name) = true
  /\ exists pre post : string,
       path = (pre ++ "{" ++ name ++ "}" ++ post)%string.

(** The same on character lists: [w] stands between braces somewhere in
    [l], and [w] is a non-empty run of pattern characters. *)
Definition occurs (w l : list ascii) : Prop :=
  exists pre post, l = pre ++ PyStr.lbrace :: w ++ PyStr.rbrace :: post.

Definition word (w : list ascii) : Prop :=
  w <> [] /\ forallb PyStr.is_param_char w = true.

(** [resp] is the HTTP response the run [m] received. *)
Definition response_of `{Runtime} {A} (m : M A) (resp : raw_response) : Prop :=
  exists verb url hdrs body files,
    In (EvRequest verb url hdrs body files) (trace m)
    /\ requests_call verb url hdrs body files = inr resp.

(** A required parameter name is absent from the named parameters. *)
Definition missing_param (self : KazooRequest.t) (kwargs : gmap string string)
           (name : string) : Prop :=
  In name (KazooRequest._required_param_names self) /\ kwargs !! name = None.

(** The method an [execute] call resolves to. *)
Definition resolved_method (self : KazooRequest.t) (method_arg : option string)
  : string :=
  match method_arg with
  | None => KazooRequest.method self
  | Some m => m
  end.

Definition valid_method (m : string) : bool :=
  str_in (PyStr.lower m) http_methods.

(** What [execute] goes on to do with the response the transport returned:
    the statements after the call, in the same words. *)
Definition received (raw_response : raw_response) : M pyval :=
  ((if (status_code raw_response =? 500)%Z
    then KazooRequest._handle_500_error raw_response else ret tt) ;;;
   response <- lift (response_json raw_response) ;;
   status <- lift (getitem response "status") ;;
   (if py_eq_str status "error" then
      emit (EvDebug "There was an error, full error text is: %s"
                    [content raw_response]) ;;;
      KazooRequest._handle_error response
    else ret tt) ;;;
   ret response)%py.

(** The body and the files an [execute] call hands to the transport. *)
Definition sent_data `{Runtime} (data : pyval) : option string :=
  if truthy data then Some (json_dumps (PyDict [("data", data)])) else None.

Definition sent_files (files : option pyfiles) : option pyfiles :=
  if KazooRequest.files_truthy files then files else None.

(** [v] has the field [key]. *)
Definition has_field (v : pyval) (key : string) : bool :=
  match getitem v key with
  | inr _ => true
  | inl _ => false
  end.

(** The five error kinds of the specification. *)
Definition typed_error (e : exn) : bool :=
  match e with
  | InvalidHttpMethodError _ | ValueError _ | KazooApiBadDataError _
  | KazooApiAuthenticationError _ | KazooApiError _ _ _ => true
  | _ => false
  end.

Definition fmt_500 : string :=
  "Internal Server Error, Request ID was %s message was %s".
Definition fmt_api : string :=
  "There was an error calling the kazoo api, Request ID was %s the error was %s".

(* ===================================================================== *)
(** ** Sample calls *)
(* ===================================================================== *)

Module Sample.

Definition base : string := "https://kazoo.test".

Definition account : KazooRequest.t :=
  KazooRequest.__init__ "/accounts/{account_id}" true "get" None.

Definition named : gmap string string := {[ "account_id" := "42" ]}.

Definition success : pyval :=
  PyDict [("status", PyStr "success"); ("data", PyDict [("x", PyInt 1)])].

Definition error_401 : pyval :=
  PyDict [("status", PyStr "error"); ("error", PyStr "401");
          ("message", PyStr "unauthorized"); ("request_id", PyStr "r1")].

Definition error_400 : pyval :=
  PyDict [("status", PyStr "error"); ("error", PyStr "400");
          ("data", PyDict [("field", PyStr "bad")])].

Definition error_404 : pyval :=
  PyDict [("status", PyStr "error"); ("error", PyStr "404");
          ("message", PyStr "not found"); ("request_id", PyStr "r2")].

Definition error_bare : pyval :=
  PyDict [("status", PyStr "error"); ("error", PyStr "404")].

Definition no_status : pyval := PyDict [("data", PyDict [("x", PyInt 1)])].

Definition oops : pyval := PyDict [("data", PyStr "oops")].

(** The runtime whose transport answers with the given status, headers
    and decoded body. *)
Definition answering (status : Z) (hdrs : list (string * string))
           (body : option pyval) : Runtime :=
  Stub.runtime (Stub.answer status hdrs body).

(** The GET of the account 42. *)
Definition get_account (R : Runtime) : M pyval :=
  @KazooRequest.execute R account base None PyNone (Some "tok") None named.

End Sample.

(* ===================================================================== *)
(** ** Path templates as segments *)
(* ===================================================================== *)

(** A path template cut into literal text and replacement fields, to speak
    of what [_get_params_from_path] and [str.format] make of the same
    template. *)
Module Template.
Import PyStr.

Inductive segment : Type :=
| Lit (text : string)
| Param (name : string).

Definition piece (s : segment) : string :=
  match s with
  | Lit t => t
  | Param n => ("{" ++ n ++ "}")%string
  end.

Fixpoint render (segs : list segment) : string :=
  match segs with
  | [] => EmptyString
  | s :: segs' => (piece s ++ render segs')%string
  end.

Definition is_brace (c : ascii) : bool :=
  Ascii.eqb c lbrace || Ascii.eqb c rbrace.

(** Literal text holds no brace. *)
Definition is_text (t : string) : bool :=
  forallb (fun c => negb (is_brace c)) (chars t).

Definition is_name_char (c : ascii) : bool :=
  negb (is_brace c) && negb (Format.is_rich c).

(** A field name [str.format] looks up among the keyword arguments: not
    empty, not a number, without braces and without the characters of
    conversions, format specifications and lookups. *)
Definition is_keyword (n : string) : bool :=
  negb (String.eqb n EmptyString)
  && forallb is_name_char (chars n)
  && negb (forallb Format.is_digit (chars n)).

(** A name the parameter pattern captures. *)
Definition is_word (n : string) : bool :=
  negb (String.eqb n EmptyString) && forallb is_param_char (chars n).

(** A field name that is an index into the positional arguments. *)
Definition is_index (n : string) : bool :=
  negb (String.eqb n EmptyString)
  && forallb Format.is_digit (chars n)
  && (String.length n <=? 18)%nat.

Definition well_formed (s : segment) : bool :=
  match s with
  | Lit t => is_text t
  | Param n => is_keyword n
  end.

Fixpoint params (segs : list segment) : list string :=
  match segs with
  | [] => []
  | Lit _ :: segs' => params segs'
  | Param n :: segs' => n :: params segs'
  end.


End Template.

(** The query string [_get_url] appends. *)
Definition query_suffix `{Runtime} (self : KazooRequest.t) : string :=
  match KazooRequest.get_params self with
  | Some ((_ :: _) as q) => ("?" ++ urlencode q)%string
  | _ => EmptyString
  end.

(** A string of lower-case hexadecimal digits. *)
Definition is_hex_char (c : ascii) : bool :=
  let n := nat_of_ascii c in
  ((48 <=? n)%nat && (n <=? 57)%nat) || ((97 <=? n)%nat && (n <=? 102)%nat).

(* ===================================================================== *)
(** * Properties *)
(* ===================================================================== *)

(** ** Test vectors *)

Example params_two :
  _get_params_from_path "/accounts/{account_id}/users/{user_id}"
  = ["account_id"; "user_id"].
Proof. reflexivity. Qed.

Example params_odd :
  _get_params_from_path "/a/{}/{{b}}/{c-d}/{e}{e}/{f" = ["b"; "e"; "e"].
Proof. reflexivity. Qed.

Example md5_empty : MD5.hexdigest "" = "d41d8cd98f00b204e9800998ecf8427e".
Proof. vm_compute. reflexivity. Qed.

Example md5_up : MD5.hexdigest "u:p" = "c23f67b65d6550777a4469461ecfb51e".
Proof. vm_compute. reflexivity. Qed.

Example md5_two_blocks :
  MD5.hexdigest
    "12345678901234567890123456789012345678901234567890123456789012345678901234567890"
  = "57edf4a22be3c955ac49da2e2107b67a".
Proof. vm_compute. reflexivity. Qed.

Example dumps_nested :
  Stub.dumps (PyDict [("data", PyDict [("x", PyInt 1); ("l", PyList [PyNone; PyBool true])])])
  = String.concat "" ["{"; Stub.quoted "data"; ": {"; Stub.quoted "x"; ": 1, ";
                      Stub.quoted "l"; ": [null, true]}}"].
Proof. vm_compute. reflexivity. Qed.

(* ===================================================================== *)
(** ** The parameter names of a path template *)
(* ===================================================================== *)

Module ParamRegexFacts.
Import PyStr ParamRegex.

Lemma brace_not_param_char :
  is_param_char lbrace = false /\ is_param_char rbrace = false.
Proof. split; reflexivity. Qed.

Lemma span_param_split (l : list ascii) :
  forall w r, span_param l = (w, r) ->
    l = w ++ r /\ forallb is_param_char w = true
    /\ match r with [] => True | d :: _ => is_param_char d = false end.
Proof.
  induction l as [|c l IH]; intros w r E; simpl in E.
  - injection E as <- <-. auto.
  - destruct (is_param_char c) eqn:Hc.
    + destruct (span_param l) as [w' r'] eqn:Es.
      injection E as <- <-.
      destruct (IH w' r' eq_refl) as (-> & Hw & Hr).
      simpl. rewrite Hc, Hw. auto.
    + injection E as <- <-. simpl. auto.
Qed.

Lemma span_param_run (w : list ascii) (d : ascii) (r : list ascii) :
  forallb is_param_char w = true -> is_param_char d = false ->
  span_param (w ++ d :: r) = (w, d :: r).
Proof.
  induction w as [|c w IH]; simpl; intros Hw Hd.
  - rewrite Hd. reflexivity.
  - apply andb_prop in Hw as [Hc Hw].
    rewrite Hc, (IH Hw Hd). reflexivity.
Qed.

(** What a match of the pattern at the head of the input is. *)
Lemma match_here_some (l : list ascii) (w : list ascii) (n : nat) :
  match_here l = Some (w, n) <->
  (exists r, l = lbrace :: w ++ rbrace :: r)
  /\ w <> [] /\ forallb is_param_char w = true /\ n = S (length w).
Proof.
  split.
  - destruct l as [|c l]; simpl; [discriminate|].
    destruct (Ascii.eqb_spec c lbrace) as [->|]; [|discriminate].
    destruct (span_param l) as [w' r'] eqn:Es.
    destruct (span_param_split _ _ _ Es) as (-> & Hw & _).
    destruct r' as [|d r']; [discriminate|].
    destruct w' as [|c' w']; simpl; [discriminate|].
    destruct (Ascii.eqb_spec d rbrace) as [->|]; [|discriminate].
    intros E. injection E as <- <-.
    repeat split; eauto; try discriminate.
  - intros ((r & ->) & Hne & Hw & ->).
    unfold match_here. rewrite Ascii.eqb_refl.
    rewrite (span_param_run w rbrace r Hw (proj2 brace_not_param_char)).
    destruct w; [congruence|].
    rewrite Ascii.eqb_refl. reflexivity.
Qed.

Lemma findall_from_skip (l : list ascii) :
  forall k, findall_from k l = findall_from 0 (skipn k l).
Proof.
  induction l as [|c l IH]; intros [|k]; try reflexivity.
  simpl findall_from at 1. rewrite IH. reflexivity.
Qed.

(** The two equations of the scan. *)
Lemma findall_match (w r : list ascii) :
  w <> [] -> forallb is_param_char w = true ->
  findall_from 0 (lbrace :: w ++ rbrace :: r) = w :: findall_from 0 r.
Proof.
  intros Hne Hw.
  assert (E : match_here (lbrace :: w ++ rbrace :: r) = Some (w, S (length w))).
  { apply match_here_some. eauto 6. }
  change (findall_from 0 (lbrace :: w ++ rbrace :: r))
    with (match match_here (lbrace :: w ++ rbrace :: r) with
          | Some (w0, n) => w0 :: findall_from n (w ++ rbrace :: r)
          | None => findall_from 0 (w ++ rbrace :: r)
          end).
  rewrite E, findall_from_skip. f_equal. f_equal.
  replace (S (length w)) with (length (w ++ [rbrace])) by (rewrite length_app; simpl; lia).
  replace (w ++ rbrace :: r) with ((w ++ [rbrace]) ++ r) by (rewrite <- app_assoc; reflexivity).
  rewrite skipn_app, skipn_all, Nat.sub_diag. reflexivity.
Qed.

Lemma findall_no_match (c : ascii) (l : list ascii) :
  match_here (c :: l) = None ->
  findall_from 0 (c :: l) = findall_from 0 l.
Proof.
  intros E.
  change (findall_from 0 (c :: l))
    with (match match_here (c :: l) with
          | Some (w0, n) => w0 :: findall_from n l
          | None => findall_from 0 l
          end).
  rewrite E. reflexivity.
Qed.

(** Every match or failure of the pattern at the head splits the scan. *)
Lemma scan_cases (l : list ascii) :
  l = [] \/
  (exists w r, word w /\ l = lbrace :: w ++ rbrace :: r
               /\ findall_from 0 l = w :: findall_from 0 r) \/
  (exists c l', l = c :: l' /\ match_here l = None
                /\ findall_from 0 l = findall_from 0 l').
Proof.
  destruct l as [|c l]; [auto|]. right.
  destruct (match_here (c :: l)) as [[w n]|] eqn:E.
  - left. apply match_here_some in E as ((r & E') & Hne & Hw & _).
    exists w, r. rewrite E'. repeat split; auto using findall_match.
  - right. exists c, l. auto using findall_no_match.
Qed.

Lemma findall_sound (n : nat) :
  forall l w, length l <= n -> In w (findall_from 0 l) -> word w /\ occurs w l.
Proof.
  induction n as [|n IH]; intros l w Hlen Hin.
  - destruct l; [destruct Hin | simpl in Hlen; lia].
  - destruct (scan_cases l) as [-> | [(w' & r & Hw' & -> & E) | (c & l' & -> & _ & E)]].
    + destruct Hin.
    + rewrite E in Hin. destruct Hin as [<- | Hin].
      * split; [assumption|]. exists [], r. reflexivity.
      * destruct (IH r w) as (Hw & pre & post & ->); auto.
        { simpl in Hlen. rewrite length_app in Hlen. simpl in Hlen. lia. }
        split; [assumption|].
        exists (lbrace :: w' ++ rbrace :: pre), post.
        simpl. rewrite <- app_assoc. reflexivity.
    + rewrite E in Hin.
      destruct (IH l' w) as (Hw & pre & post & ->); auto.
      { simpl in Hlen. lia. }
      split; [assumption|]. exists (c :: pre), post. reflexivity.
Qed.

(** A word and the brace after it, read off the front of a list. *)
Lemma word_prefix_unique (w w' : list ascii) :
  forall r r',
    forallb is_param_char w = true -> forallb is_param_char w' = true ->
    w ++ rbrace :: r = w' ++ rbrace :: r' -> w = w' /\ r = r'.
Proof.
  revert w'. induction w as [|c w IH]; intros [|c' w'] r r' Hw Hw' E; simpl in *.
  - injection E as <-. auto.
  - injection E as <- _. apply andb_prop in Hw' as [Hc _].
    rewrite (proj2 brace_not_param_char) in Hc. discriminate.
  - injection E as -> _. apply andb_prop in Hw as [Hc _].
    rewrite (proj2 brace_not_param_char) in Hc. discriminate.
  - injection E as -> E. apply andb_prop in Hw as [_ Hw].
    apply andb_prop in Hw' as [_ Hw'].
    destruct (IH w' r r' Hw Hw' E) as [-> ->]. auto.
Qed.

(** An opening brace later in the input lies behind the whole match. *)
Lemma brace_after_word (w' : list ascii) :
  forall pre r rest,
    forallb is_param_char w' = true ->
    pre ++ lbrace :: rest = w' ++ rbrace :: r ->
    exists pre', pre = w' ++ rbrace :: pre' /\ r = pre' ++ lbrace :: rest.
Proof.
  induction w' as [|c w' IH]; intros pre r rest Hw E; simpl in *.
  - destruct pre as [|p pre]; simpl in E.
    + injection E as E _. discriminate.
    + injection E as -> <-. eauto.
  - apply andb_prop in Hw as [Hc Hw].
    destruct pre as [|p pre]; simpl in E.
    + injection E as <- _.
      rewrite (proj1 brace_not_param_char) in Hc. discriminate.
    + injection E as -> E.
      destruct (IH pre r rest Hw E) as (pre' & -> & ->). eauto.
Qed.

Lemma findall_complete (n : nat) :
  forall l w, length l <= n -> word w -> occurs w l -> In w (findall_from 0 l).
Proof.
  induction n as [|n IH]; intros l w Hlen Hw (pre & post & El).
  - subst l. rewrite length_app in Hlen. simpl in Hlen. lia.
  - destruct (scan_cases l) as [-> | [(w' & r & Hw' & E' & E) | (c & l' & E' & Hno & E)]].
    + destruct pre; discriminate.
    + rewrite E. destruct pre as [|p pre]; simpl in El.
      * rewrite E' in El. injection El as El.
        destruct (word_prefix_unique w' w r post) as [-> _];
          [apply Hw' | apply Hw | exact El | left; reflexivity].
      * rewrite E' in El. injection El as _ El. symmetry in El.
        destruct (brace_after_word w' pre r (w ++ rbrace :: post)) as (pre' & _ & ->);
          [apply Hw' | exact El |].
        right. apply IH; [| assumption | exists pre', post; reflexivity].
        subst l. simpl in Hlen. rewrite length_app in Hlen. simpl in Hlen. lia.
    + rewrite E. destruct pre as [|p pre]; simpl in El.
      * exfalso. rewrite El in Hno.
        assert (H : match_here (lbrace :: w ++ rbrace :: post) = Some (w, S (length w))).
        { apply match_here_some. destruct Hw. eauto 6. }
        congruence.
      * rewrite E' in El. injection El as _ ->.
        apply IH; [| assumption | exists pre, post; reflexivity].
        subst l. simpl in Hlen. lia.
Qed.

Lemma findall_from_iff (l w : list ascii) :
  In w (findall_from 0 l) <-> word w /\ occurs w l.
Proof.
  split.
  - apply (findall_sound (length l)). lia.
  - intros [Hw Ho]. apply (findall_complete (length l)); auto.
Qed.

Lemma chars_app (a b : string) : chars (a ++ b) = chars a ++ chars b.
Proof. induction a as [|c a IH]; simpl; [reflexivity | now rewrite IH]. Qed.

Lemma of_chars_app (a b : list ascii) :
  of_chars (a ++ b) = (of_chars a ++ of_chars b)%string.
Proof. induction a as [|c a IH]; simpl; [reflexivity | now rewrite IH]. Qed.

Lemma of_chars_chars (s : string) : of_chars (chars s) = s.
Proof. apply string_of_list_ascii_of_string. Qed.

Lemma chars_of_chars (l : list ascii) : chars (of_chars l) = l.
Proof. apply list_ascii_of_string_of_list_ascii. Qed.

End ParamRegexFacts.

Lemma params_from_path_iff (path name : string) :
  In name (_get_params_from_path path) <-> is_token name path.
Proof.
  unfold _get_params_from_path, ParamRegex.findall, is_token.
  rewrite in_map_iff. split.
  - intros (w & <- & Hin).
    apply ParamRegexFacts.findall_from_iff in Hin
      as ((Hne & Hw) & pre & post & E).
    rewrite ParamRegexFacts.chars_of_chars. repeat split.
    + destruct w; [congruence | discriminate].
    + assumption.
    + exists (PyStr.of_chars pre), (PyStr.of_chars post).
      rewrite <- (ParamRegexFacts.of_chars_chars path), E.
      change (pre ++ PyStr.lbrace :: w ++ PyStr.rbrace :: post)
        with (pre ++ [PyStr.lbrace] ++ w ++ [PyStr.rbrace] ++ post).
      rewrite !ParamRegexFacts.of_chars_app. reflexivity.
  - intros (Hne & Hw & pre & post & ->).
    exists (PyStr.chars name). split.
    + apply ParamRegexFacts.of_chars_chars.
    + apply ParamRegexFacts.findall_from_iff. split.
      * split; [|assumption]. destruct name; [congruence | discriminate].
      * exists (PyStr.chars pre), (PyStr.chars post).
        rewrite !ParamRegexFacts.chars_app. reflexivity.
Qed.


(** C4.  The required parameter names computed when a descriptor is
    constructed are, as a set, the [{name}] tokens of its path template:
    a name is among them exactly when it is a non-empty run of letters,
    digits and underscores that stands between braces in the template.
    The order of the list and its repetitions play no part. *)
Theorem required_param_names_are_tokens
  (path : string) (auth_required : bool) (method : string)
  (get_params : option (list (string * string))) (name : string) :
  In name (KazooRequest._required_param_names
             (KazooRequest.__init__ path auth_required method get_params))
  <-> is_token name path.
Proof. apply params_from_path_iff. Qed.

(* ===================================================================== *)
(** ** Messages built with [str.format] *)
(* ===================================================================== *)

Lemma append_empty (s : string) : (s ++ "")%string = s.
Proof.
  induction s as [|c s IH]; [reflexivity|].
  change (String c (s ++ "")%string = String c s). now rewrite IH.
Qed.

Section FormatFacts.
Context {R : Runtime}.

Lemma format_invalid_method (m : string) :
  str_format "method {0} is not a valid http method" [m] ∅
  = inr ("method " ++ m ++ " is not a valid http method")%string.
Proof. reflexivity. Qed.

Lemma format_required (name : string) :
  str_format "keyword argument {0} is required" [name] ∅
  = inr ("keyword argument " ++ name ++ " is required")%string.
Proof. reflexivity. Qed.

Lemma format_credentials (u p : string) :
  str_format "{0}:{1}" [u; p] ∅ = inr (u ++ ":" ++ p)%string.
Proof.
  unfold str_format, Format.plain. simpl.
  rewrite append_empty. reflexivity.
Qed.

End FormatFacts.

Example format_escapes :
  @str_format (Stub.runtime (inl IndexError)) "/{{x}}/{a}/{}{}" ["1"; "2"]
    {[ "a" := "A" ]}
  = inr "/{x}/A/12".
Proof. vm_compute. reflexivity. Qed.

Example format_missing_key :
  @str_format (Stub.runtime (inl IndexError)) "/accounts/{account_id}" [] ∅
  = inl (KeyError "account_id").
Proof. vm_compute. reflexivity. Qed.

(* ===================================================================== *)
(** ** The stages of [execute] *)
(* ===================================================================== *)

(** ** The laws of the effect *)

Lemma bind_ret {A B} (x : A) (k : A -> M B) : bind (ret x) k = k x.
Proof. unfold bind, ret. destruct (k x). reflexivity. Qed.

Lemma bind_raise {A B} (e : exn) (k : A -> M B) : bind (raise e) k = raise e.
Proof. reflexivity. Qed.

Lemma bind_lift_inr {A B} (x : A) (k : A -> M B) : bind (lift (inr x)) k = k x.
Proof. apply bind_ret. Qed.

Lemma bind_lift_inl {A B} (e : exn) (k : A -> M B) : bind (lift (inl e)) k = raise e.
Proof. reflexivity. Qed.

Lemma bind_emit {B} (ev : event) (k : unit -> M B) :
  bind (emit ev) k = (ev :: trace (k tt), outcome (k tt)).
Proof. unfold bind, emit, trace, outcome. destruct (k tt). reflexivity. Qed.

Lemma bind_assoc {A B C} (m : M A) (k : A -> M B) (h : B -> M C) :
  bind (bind m k) h = bind m (fun x => bind (k x) h).
Proof.
  destruct m as [t [e|x]]; [reflexivity|]. unfold bind.
  destruct (k x) as [t' [e|y]]; [reflexivity|].
  destruct (h y) as [t'' r]. now rewrite app_assoc.
Qed.

Section ExecuteFacts.
Context {R : Runtime}.
Import KazooRequest.

Lemma check_required_cons (n : string) (names : list string)
      (kwargs : gmap string string) :
  check_required (n :: names) kwargs
  = match kwargs !! n with
    | None => raise (ValueError ("keyword argument " ++ n ++ " is required")%string)
    | Some _ => check_required names kwargs
    end.
Proof. reflexivity. Qed.

Lemma check_required_silent (names : list string) (kwargs : gmap string string) :
  trace (check_required names kwargs) = [].
Proof.
  induction names as [|n names IH]; [reflexivity|].
  rewrite check_required_cons. destruct (kwargs !! n); [exact IH | reflexivity].
Qed.

(** The loop passes exactly when no required name is missing; otherwise
    it stops at the first missing one. *)
Lemma check_required_ok (names : list string) (kwargs : gmap string string) :
  (forall n, In n names -> kwargs !! n <> None) ->
  check_required names kwargs = ret tt.
Proof.
  induction names as [|n names IH]; intros Hall; [reflexivity|].
  rewrite check_required_cons. destruct (kwargs !! n) eqn:E.
  - apply IH. intros x Hx. apply Hall. now right.
  - exfalso. apply (Hall n); [now left | exact E].
Qed.

Lemma check_required_missing (names : list string) (kwargs : gmap string string) :
  (exists n, In n names /\ kwargs !! n = None) ->
  exists n, In n names /\ kwargs !! n = None
    /\ check_required names kwargs
       = raise (ValueError ("keyword argument " ++ n ++ " is required")%string).
Proof.
  induction names as [|n names IH]; intros (x & Hin & Hx); [destruct Hin|].
  rewrite check_required_cons. destruct (kwargs !! n) eqn:E.
  - destruct Hin as [-> | Hin]; [congruence|].
    destruct IH as (y & Hy & Hy' & Hr); [eauto|].
    exists y. repeat split; [now right | assumption | assumption].
  - exists n. repeat split; [now left | assumption].
Qed.

Lemma check_required_cases (names : list string) (kwargs : gmap string string) :
  check_required names kwargs = ret tt
  \/ exists e, check_required names kwargs = raise e.
Proof.
  induction names as [|n names IH]; [now left|].
  rewrite check_required_cons. destruct (kwargs !! n); [exact IH|].
  right. eauto.
Qed.

(** After the response has come in, nothing is sent any more. *)
Lemma handle_error_silent (v : pyval) :
  network_calls (_handle_error v) = [].
Proof.
  unfold _handle_error, network_calls, trace.
  destruct (getitem v "error") as [e|code]; [reflexivity|]. simpl.
  destruct (py_eq_str code "400"); simpl.
  - destruct (contains v "data") as [e|[|]]; simpl; try reflexivity.
    + destruct (getitem v "data"); reflexivity.
    + destruct (py_eq_str code "401"); simpl; [reflexivity|].
      destruct (getitem v "request_id"); simpl; [reflexivity|].
      destruct (getitem v "message"); reflexivity.
  - destruct (py_eq_str code "401"); simpl; [reflexivity|].
    destruct (getitem v "request_id"); simpl; [reflexivity|].
    destruct (getitem v "message"); reflexivity.
Qed.

Lemma handle_500_silent (r : raw_response) :
  trace (_handle_500_error r) = [].
Proof.
  unfold _handle_500_error, trace.
  destruct (response_header r "X-Request-Id"); simpl; [reflexivity|].
  destruct (response_json r) as [e|b]; simpl; [reflexivity|].
  destruct (truthy b); simpl; [|reflexivity].
  destruct (getitem b "data"); reflexivity.
Qed.

Lemma received_silent (r : raw_response) :
  network_calls (received r) = [].
Proof.
  unfold received, network_calls.
  assert (H500 : forall k : unit -> M pyval,
             List.filter is_request (trace (k tt)) = [] ->
             List.filter is_request
               (trace (bind (if (status_code r =? 500)%Z
                             then _handle_500_error r else ret tt) k)) = []).
  { intros k Hk. destruct (status_code r =? 500)%Z.
    - pose proof (handle_500_silent r) as Hs.
      destruct (_handle_500_error r) as [t [e|[]]]; unfold trace in *; simpl in *.
      + now subst t.
      + subst t. destruct (k tt). exact Hk.
    - rewrite bind_ret. exact Hk. }
  apply H500.
  destruct (response_json r) as [e|body]; [reflexivity|]. rewrite bind_lift_inr.
  destruct (getitem body "status") as [e|status]; [reflexivity|].
  rewrite bind_lift_inr.
  destruct (py_eq_str status "error").
  - rewrite bind_assoc, bind_emit. unfold trace at 1. simpl List.filter.
    pose proof (handle_error_silent body) as Hs. unfold network_calls in Hs.
    destruct (_handle_error body) as [t [e|[]]]; unfold trace, outcome in *; simpl in *.
    + exact Hs.
    + rewrite app_nil_r. exact Hs.
  - rewrite bind_ret. reflexivity.
Qed.

Section Call.
Variables (self : t) (base_url : string) (method_arg : option string)
          (data : pyval) (token : option string) (files : option pyfiles)
          (kwargs : gmap string string).

Let run : M pyval :=
  execute self base_url method_arg data token files kwargs.
Let m : string := resolved_method self method_arg.

(** [execute] either stops before anything is logged or sent, or stops
    at the lookup of the request function after the first log line, or
    sends one request and goes on with what the transport returns. *)
Lemma execute_stages :
  (trace run = []
   /\ exists e, outcome run = inl e
      /\ (valid_method m = false ->
          e = InvalidHttpMethodError
                ("method " ++ m ++ " is not a valid http method")%string)
      /\ (valid_method m = true ->
          (_get_url self kwargs base_url = inl e
           /\ check_required (_required_param_names self) kwargs = ret tt)
          \/ check_required (_required_param_names self) kwargs = raise e))
  \/ (exists url,
        valid_method m = true
        /\ str_in m http_methods = false
        /\ run = ([EvDebug "Making %s request to url %s" [m; url]],
                  inl (AttributeError m)))
  \/ (exists url,
        valid_method m = true
        /\ check_required (_required_param_names self) kwargs = ret tt
        /\ _get_url self kwargs base_url = inr url
        /\ str_in m http_methods = true
        /\ let rr := requests_call m url (_get_headers self token)
                                   (sent_data data) (sent_files files) in
           run = (EvDebug "Making %s request to url %s" [m; url]
                  :: EvRequest m url (_get_headers self token)
                               (sent_data data) (sent_files files)
                  :: trace (bind (lift rr) received),
                  outcome (bind (lift rr) received))).
Proof.
  subst run. unfold execute.
  change (match method_arg with None => method self | Some m0 => m0 end) with m.
  change (str_in (PyStr.lower m) http_methods) with (valid_method m).
  destruct (valid_method m) eqn:Hv; cbn [negb].
  - rewrite bind_ret.
    destruct (check_required_cases (_required_param_names self) kwargs)
      as [Hc | (e & Hc)]; rewrite Hc.
    + rewrite bind_ret.
      destruct (_get_url self kwargs base_url) as [e|url] eqn:Hu.
      * left. split; [reflexivity|]. exists e.
        split; [reflexivity|]. split; [discriminate | auto].
      * rewrite bind_lift_inr, bind_emit.
        unfold getattr_requests.
        destruct (str_in m http_methods) eqn:Hm.
        -- right. right. exists url.
           do 4 (split; [reflexivity|]).
           rewrite bind_lift_inr, bind_emit. reflexivity.
        -- right. left. exists url.
           split; [reflexivity|]. split; reflexivity.
    + left. split; [reflexivity|]. exists e.
      split; [reflexivity|]. split; [discriminate | auto].
  - left. rewrite format_invalid_method, bind_lift_inr. split; [reflexivity|].
    eexists. split; [reflexivity|]. split; [reflexivity | discriminate].
Qed.

Lemma after_call_silent (rr : result raw_response) :
  network_calls (bind (lift rr) received) = [].
Proof.
  destruct rr as [e|resp]; [reflexivity|].
  rewrite bind_lift_inr. apply received_silent.
Qed.

(** Whatever request is in the trace of a call is the one [execute]
    builds from its arguments. *)
Lemma execute_sent (verb u : string) (h : gmap string (option string))
      (b : option string) (f : option pyfiles) :
  In (EvRequest verb u h b f) (trace run) ->
  valid_method m = true
  /\ check_required (_required_param_names self) kwargs = ret tt
  /\ _get_url self kwargs base_url = inr u
  /\ verb = m /\ str_in m http_methods = true
  /\ h = _get_headers self token
  /\ b = sent_data data /\ f = sent_files files
  /\ network_calls run = [EvRequest verb u h b f]
  /\ outcome run = outcome (bind (lift (requests_call verb u h b f)) received).
Proof.
  intros Hin.
  destruct execute_stages
    as [(Ht & _) | [(url & _ & _ & Hr) | (url & Hv & Hc & Hu & Hm & Hr)]].
  - rewrite Ht in Hin. destruct Hin.
  - rewrite Hr in Hin. destruct Hin as [Hin | []]. discriminate.
  - cbv zeta in Hr. rewrite Hr in Hin.
    destruct Hin as [Hin | [Hin | Hin]].
    + discriminate.
    + injection Hin as <- <- <- <- <-.
      repeat (split; [first [assumption | reflexivity]|]).
      rewrite Hr. split; [|reflexivity].
      unfold network_calls at 1. unfold trace at 1.
      change (fst (?a, ?b)) with a. simpl List.filter.
      f_equal. apply after_call_silent.
    + exfalso.
      assert (Hf : In (EvRequest verb u h b f)
                      (network_calls
                         (bind (lift (requests_call m url (_get_headers self token)
                                        (sent_data data) (sent_files files)))
                               received))).
      { apply filter_In. split; [exact Hin | reflexivity]. }
      rewrite after_call_silent in Hf. destruct Hf.
Qed.

(** The response a call received decides how it ends. *)
Lemma execute_received (resp : raw_response) :
  response_of run resp -> outcome run = outcome (received resp).
Proof.
  intros (verb & u & h & b & f & Hin & Hcall).
  destruct (execute_sent _ _ _ _ _ Hin) as (_ & _ & _ & _ & _ & _ & _ & _ & _ & Ho).
  rewrite Ho, Hcall, bind_lift_inr. reflexivity.
Qed.

(** A call that sent nothing received nothing. *)
Lemma execute_quiet :
  trace run = [] -> network_calls run = [].
Proof. unfold network_calls. now intros ->. Qed.

End Call.

End ExecuteFacts.

(* ===================================================================== *)
(** ** Validation before the call *)
(* ===================================================================== *)

(** C7.  When the method a call resolves to (the explicit one if given,
    else the default of the descriptor) is, once lower-cased, none of get,
    post, put and delete, [execute] raises [InvalidHttpMethodError],
    whatever named parameters it is given, and neither logs nor sends
    anything. *)
Theorem invalid_method_rejected {R : Runtime}
  (self : KazooRequest.t) (base_url : string) (method_arg : option string)
  (data : pyval) (token : option string) (files : option pyfiles)
  (kwargs : gmap string string) :
  valid_method (resolved_method self method_arg) = false ->
  outcome (KazooRequest.execute self base_url method_arg data token files kwargs)
  = inl (InvalidHttpMethodError
           ("method " ++ resolved_method self method_arg
            ++ " is not a valid http method")%string)
  /\ trace (KazooRequest.execute self base_url method_arg data token files kwargs) = []
  /\ network_calls
       (KazooRequest.execute self base_url method_arg data token files kwargs) = [].
Proof.
  intros Hv.
  destruct (execute_stages self base_url method_arg data token files kwargs)
    as [(Ht & e & He & Hbad & _) | [(url & Hv' & _) | (url & Hv' & _)]];
    try congruence.
  rewrite He, (Hbad Hv). repeat split; [assumption|].
  now apply execute_quiet.
Qed.

Lemma invalid_method_rejected_witness :
  valid_method (resolved_method Sample.account (Some "PATCH")) = false
  /\ outcome (@KazooRequest.execute (Sample.answering 200 [] (Some Sample.success))
                Sample.account Sample.base (Some "PATCH") PyNone None None
                Sample.named)
     = inl (InvalidHttpMethodError "method PATCH is not a valid http method").
Proof.
  split; [reflexivity|].
  apply (@invalid_method_rejected (Sample.answering 200 [] (Some Sample.success))
           Sample.account Sample.base (Some "PATCH") PyNone None None Sample.named).
  reflexivity.
Defined.

(** The method check compares the lower-cased method, the lookup of the
    request function does not lower-case it. *)
Example upper_case_method_is_not_sent :
  @KazooRequest.execute (Sample.answering 200 [] (Some Sample.success))
    Sample.account Sample.base (Some "GET") PyNone (Some "tok") None Sample.named
  = ([EvDebug "Making %s request to url %s"
              ["GET"; "https://kazoo.test/accounts/42"]],
     inl (AttributeError "GET")).
Proof. vm_compute. reflexivity. Qed.

(** C1, as stated, fails: a call that lacks a required parameter and names
    an invalid method ends with [InvalidHttpMethodError], since the method
    is checked first. *)
Lemma missing_param_invalid_method_counterexample :
  let self := KazooRequest.__init__ "/accounts/{account_id}" true "patch" None in
  let run := @KazooRequest.execute (Sample.answering 200 [] (Some Sample.success))
               self Sample.base None PyNone None None ∅ in
  is_token "account_id" "/accounts/{account_id}"
  /\ missing_param self ∅ "account_id"
  /\ outcome run
     = inl (InvalidHttpMethodError "method patch is not a valid http method")
  /\ forall msg, outcome run <> inl (ValueError msg).
Proof.
  cbv zeta. split; [|split; [|split]].
  - split; [discriminate|]. split; [reflexivity|].
    exists "/accounts/", "". reflexivity.
  - split; [left; reflexivity | reflexivity].
  - vm_compute. reflexivity.
  - intros msg. vm_compute. discriminate.
Qed.

(** C1, amended.  When the resolved method is valid and a [{name}] token
    of the path template is absent from the named parameters, [execute]
    raises the [ValueError] that names a missing parameter, and neither
    logs a URL nor sends a request. *)
Theorem missing_param_rejected {R : Runtime}
  (path : string) (auth_required : bool) (method : string)
  (get_params : option (list (string * string)))
  (base_url : string) (method_arg : option string)
  (data : pyval) (token : option string) (files : option pyfiles)
  (kwargs : gmap string string) :
  let self := KazooRequest.__init__ path auth_required method get_params in
  let run := KazooRequest.execute self base_url method_arg data token files kwargs in
  valid_method (resolved_method self method_arg) = true ->
  (exists name, is_token name path /\ kwargs !! name = None) ->
  exists name,
    is_token name path /\ kwargs !! name = None
    /\ outcome run
       = inl (ValueError ("keyword argument " ++ name ++ " is required")%string)
    /\ trace run = []
    /\ network_calls run = [].
Proof.
  intros self run Hv (x & Hx & Hnone).
  destruct (check_required_missing (KazooRequest._required_param_names self) kwargs)
    as (name & Hin & Hname & Hc).
  { exists x. split; [|assumption]. now apply params_from_path_iff. }
  exists name. split; [now apply params_from_path_iff|]. split; [assumption|].
  destruct (execute_stages self base_url method_arg data token files kwargs)
    as [(Ht & e & He & _ & Hgood) | [(url & _ & _ & Hr) | (url & _ & Hok & _)]].
  - destruct (Hgood Hv) as [(_ & Hok) | Hraise].
    + rewrite Hok in Hc. discriminate.
    + rewrite Hraise in Hc. injection Hc as ->.
      repeat split; [assumption | assumption | now apply execute_quiet].
  - exfalso. revert Hr. unfold KazooRequest.execute.
    change (match method_arg with
            | None => KazooRequest.method self
            | Some m => m
            end) with (resolved_method self method_arg).
    change (str_in (PyStr.lower (resolved_method self method_arg)) http_methods)
      with (valid_method (resolved_method self method_arg)).
    rewrite Hv. cbn [negb]. rewrite bind_ret, Hc. discriminate.
  - rewrite Hok in Hc. discriminate.
Qed.

Lemma missing_param_rejected_witness :
  exists name,
    is_token name "/accounts/{account_id}"
    /\ (∅ : gmap string string) !! name = None
    /\ outcome (@KazooRequest.execute (Sample.answering 200 [] (Some Sample.success))
                  Sample.account Sample.base None PyNone None None ∅)
       = inl (ValueError ("keyword argument " ++ name ++ " is required")%string)
    /\ trace (@KazooRequest.execute (Sample.answering 200 [] (Some Sample.success))
                Sample.account Sample.base None PyNone None None ∅) = []
    /\ network_calls
         (@KazooRequest.execute (Sample.answering 200 [] (Some Sample.success))
            Sample.account Sample.base None PyNone None None ∅) = [].
Proof.
  apply (@missing_param_rejected (Sample.answering 200 [] (Some Sample.success))
           "/accounts/{account_id}" true "get" None Sample.base None PyNone
           None None ∅).
  - reflexivity.
  - exists "account_id". split; [|reflexivity].
    split; [discriminate|]. split; [reflexivity|].
    exists "/accounts/", "". reflexivity.
Defined.

(* ===================================================================== *)
(** ** What is sent *)
(* ===================================================================== *)

(** C3, as stated, fails: an empty object given as [data] is supplied, and
    the request goes out without a body; likewise an empty [files]. *)
Lemma empty_data_counterexample :
  let R := Sample.answering 200 [] (Some Sample.success) in
  let run := @KazooRequest.execute R Sample.account Sample.base (Some "post")
               (PyDict []) (Some "tok") (Some []) Sample.named in
  PyDict [] <> PyNone
  /\ network_calls run
     = [EvRequest "post" "https://kazoo.test/accounts/42"
                  (KazooRequest._get_headers Sample.account (Some "tok"))
                  None None]
  /\ network_calls run
     <> [EvRequest "post" "https://kazoo.test/accounts/42"
                   (KazooRequest._get_headers Sample.account (Some "tok"))
                   (Some (@json_dumps R (PyDict [("data", PyDict [])]))) None].
Proof.
  cbv zeta. split; [discriminate|]. split.
  - vm_compute. reflexivity.
  - vm_compute. discriminate.
Qed.

(** C3, amended.  In the request [execute] sends, the body is the JSON
    text of [{"data": data}] when [data] is true in Python's sense (not
    [None], [False], zero or empty) and absent otherwise, and the files are
    the given ones when they are non-empty and absent otherwise; the two
    are set independently of each other. *)
Theorem request_body_and_files {R : Runtime}
  (self : KazooRequest.t) (base_url : string) (method_arg : option string)
  (data : pyval) (token : option string) (files : option pyfiles)
  (kwargs : gmap string string)
  (verb url : string) (hdrs : gmap string (option string))
  (body : option string) (sent : option pyfiles) :
  In (EvRequest verb url hdrs body sent)
     (trace (KazooRequest.execute self base_url method_arg data token files kwargs)) ->
  body = (if truthy data
          then Some (json_dumps (PyDict [("data", data)]))
          else None)
  /\ sent = (if KazooRequest.files_truthy files then files else None).
Proof.
  intros Hin.
  destruct (execute_sent self base_url method_arg data token files kwargs
              _ _ _ _ _ Hin) as (_ & _ & _ & _ & _ & _ & Hb & Hf & _).
  split; assumption.
Qed.

Lemma request_body_and_files_witness :
  let R := Sample.answering 200 [] (Some Sample.success) in
  let payload := PyDict [("name", PyStr "n")] in
  let upload := [("logo", "PNG")] in
  let body := Some (@json_dumps R (PyDict [("data", payload)])) in
  let request := EvRequest "post" "https://kazoo.test/accounts/42"
                   (KazooRequest._get_headers Sample.account (Some "tok"))
                   body (Some upload) in
  In request
     (trace (@KazooRequest.execute R Sample.account Sample.base (Some "post")
               payload (Some "tok") (Some upload) Sample.named))
  /\ body = (if truthy payload
             then Some (@json_dumps R (PyDict [("data", payload)]))
             else None)
  /\ Some upload
     = (if KazooRequest.files_truthy (Some upload) then Some upload else None).
Proof.
  cbv zeta.
  assert (Hin : In (EvRequest "post" "https://kazoo.test/accounts/42"
                      (KazooRequest._get_headers Sample.account (Some "tok"))
                      (Some (@json_dumps (Sample.answering 200 [] (Some Sample.success))
                               (PyDict [("data", PyDict [("name", PyStr "n")])])))
                      (Some [("logo", "PNG")]))
                   (trace (@KazooRequest.execute
                             (Sample.answering 200 [] (Some Sample.success))
                             Sample.account Sample.base (Some "post")
                             (PyDict [("name", PyStr "n")]) (Some "tok")
                             (Some [("logo", "PNG")]) Sample.named))).
  { vm_compute. right. left. reflexivity. }
  split; [exact Hin|].
  exact (@request_body_and_files (Sample.answering 200 [] (Some Sample.success))
           Sample.account Sample.base (Some "post")
           (PyDict [("name", PyStr "n")]) (Some "tok") (Some [("logo", "PNG")])
           Sample.named _ _ _ _ _ Hin).
Defined.

Section AuthFacts.
Context {R : Runtime}.

(** A descriptor without placeholders, parameters or query string sends
    one request to its path, by the method it is called with. *)
Lemma execute_fixed_path (p verb base_url : string) (ar : bool) (dflt : string)
      (data : pyval) (token : option string) (files : option pyfiles) :
  let self := KazooRequest.__init__ p ar dflt None in
  str_in verb http_methods = true ->
  valid_method verb = true ->
  _get_params_from_path p = [] ->
  str_format p [] ∅ = inr p ->
  network_calls
    (KazooRequest.execute self base_url (Some verb) data token files ∅)
  = [EvRequest verb (base_url ++ p)%string (KazooRequest._get_headers self token)
               (sent_data data) (sent_files files)].
Proof.
  intros self Hm Hv Hp Hf.
  assert (Hu : KazooRequest._get_url self ∅ base_url = inr (base_url ++ p)%string).
  { unfold KazooRequest._get_url, KazooRequest._get_url_with_variables_replaced.
    simpl KazooRequest.path. rewrite Hf. reflexivity. }
  assert (Hc : KazooRequest.check_required
                 (KazooRequest._required_param_names self) ∅ = ret tt).
  { simpl KazooRequest._required_param_names. rewrite Hp. reflexivity. }
  destruct (execute_stages self base_url (Some verb) data token files ∅)
    as [(_ & e & _ & _ & Hgood) | [(url & _ & Hno & _) | (url & _ & _ & Hu' & _ & Hr)]].
  - destruct (Hgood Hv) as [(Hbad & _) | Hbad].
    + rewrite Hu in Hbad. discriminate.
    + rewrite Hc in Hbad. discriminate.
  - simpl resolved_method in Hno. congruence.
  - cbv zeta in Hr. simpl resolved_method in Hr. rewrite Hr.
    rewrite Hu in Hu'. injection Hu' as <-.
    unfold network_calls at 1. unfold trace at 1.
    change (fst (?a, ?b)) with a. simpl List.filter.
    f_equal. apply after_call_silent.
Qed.

End AuthFacts.

(** C6.  The credentials of a username and password request are the MD5
    hex digest of the username, a colon and the password; its [execute]
    sends one request, a PUT to [base_url] followed by [/user_auth], whose
    headers hold the content type only (no auth token) and whose body is
    the JSON text of [{"data": {"credentials": digest, "account_name":
    account_name}}]. *)
Theorem user_auth_request {R : Runtime}
  (username password account_name base_url : string) :
  let self := UsernamePasswordAuthRequest.__init__ username password account_name in
  let digest := MD5.hexdigest (username ++ ":" ++ password)%string in
  UsernamePasswordAuthRequest._get_hashed_credentials self = inr digest
  /\ network_calls (UsernamePasswordAuthRequest.execute self base_url)
     = [EvRequest "put" (base_url ++ "/user_auth")%string
                  {[ "Content-Type" := Some "application/json" ]}
                  (Some (json_dumps
                     (PyDict [("data",
                        PyDict [("credentials", PyStr digest);
                                ("account_name", PyStr account_name)])])))
                  None].
Proof.
  intros self digest.
  assert (Hd : UsernamePasswordAuthRequest._get_hashed_credentials self = inr digest).
  { unfold UsernamePasswordAuthRequest._get_hashed_credentials.
    simpl UsernamePasswordAuthRequest.username.
    simpl UsernamePasswordAuthRequest.password.
    rewrite format_credentials. reflexivity. }
  split; [exact Hd|].
  unfold UsernamePasswordAuthRequest.execute.
  rewrite Hd, bind_lift_inr.
  simpl UsernamePasswordAuthRequest.super.
  simpl UsernamePasswordAuthRequest.account_name.
  rewrite execute_fixed_path; reflexivity.
Qed.

Example user_auth_digest :
  @UsernamePasswordAuthRequest._get_hashed_credentials
    (Sample.answering 200 [] (Some Sample.success))
    (UsernamePasswordAuthRequest.__init__ "u" "p" "acme")
  = inr "c23f67b65d6550777a4469461ecfb51e".
Proof. vm_compute. reflexivity. Qed.

(* ===================================================================== *)
(** ** How a response is classified *)
(* ===================================================================== *)

Section ResponseFacts.
Context {R : Runtime}.

(** A value that has a field is a dictionary, and a non-empty one. *)
Lemma getitem_dict (v : pyval) (key : string) (x : pyval) :
  getitem v key = inr x ->
  contains v "data" = inr (has_field v "data") /\ truthy v = true.
Proof.
  destruct v as [| | | | | |items]; try discriminate.
  intros H. split.
  - unfold contains, has_field, getitem. destruct (dict_get items "data"); reflexivity.
  - destruct items; [discriminate | reflexivity].
Qed.

Lemma getitem_failure (v : pyval) (key : string) :
  has_field v key = false ->
  getitem v key = inl (match v with PyDict _ => KeyError key | _ => TypeError end).
Proof.
  unfold has_field. destruct v as [| | | | | |items]; try reflexivity.
  simpl. destruct (dict_get items key); [discriminate | reflexivity].
Qed.

(** Past a status other than 500, the decoded body and its status field
    are read. *)
Lemma received_not_500 (resp : raw_response) :
  status_code resp <> 500%Z ->
  received resp
  = (response <- lift (response_json resp) ;;
     status <- lift (getitem response "status") ;;
     (if py_eq_str status "error" then
        emit (EvDebug "There was an error, full error text is: %s"
                      [content resp]) ;;;
        KazooRequest._handle_error response
      else ret tt) ;;;
     ret response)%py.
Proof.
  intros H. unfold received.
  rewrite (proj2 (Z.eqb_neq _ _) H), bind_ret. reflexivity.
Qed.

Lemma received_body (resp : raw_response) (body status : pyval) :
  status_code resp <> 500%Z -> json resp = Some body ->
  getitem body "status" = inr status ->
  outcome (received resp)
  = if py_eq_str status "error"
    then match outcome (KazooRequest._handle_error body) with
         | inl e => inl e
         | inr _ => inr body
         end
    else inr body.
Proof.
  intros H Hj Hs. rewrite (received_not_500 _ H).
  unfold response_json. rewrite Hj, bind_lift_inr, Hs, bind_lift_inr.
  destruct (py_eq_str status "error").
  - rewrite bind_assoc, bind_emit. unfold outcome at 1. simpl snd.
    destruct (KazooRequest._handle_error body) as [t [e|[]]]; reflexivity.
  - rewrite bind_ret. reflexivity.
Qed.

Lemma handle_error_401 (body : pyval) :
  getitem body "error" = inr (PyStr "401") ->
  KazooRequest._handle_error body
  = raise (KazooApiAuthenticationError "Invalid credentials").
Proof.
  intros He. unfold KazooRequest._handle_error.
  rewrite He, bind_lift_inr. reflexivity.
Qed.

Lemma handle_error_400 (body d : pyval) :
  getitem body "error" = inr (PyStr "400") -> getitem body "data" = inr d ->
  KazooRequest._handle_error body = raise (KazooApiBadDataError d).
Proof.
  intros He Hd. unfold KazooRequest._handle_error.
  rewrite He, bind_lift_inr.
  destruct (getitem_dict _ _ _ He) as [-> _].
  unfold has_field. rewrite Hd. reflexivity.
Qed.

Lemma handle_error_other (body code request_id message : pyval) :
  getitem body "error" = inr code ->
  py_eq_str code "400" && has_field body "data" = false ->
  py_eq_str code "401" = false ->
  getitem body "request_id" = inr request_id ->
  getitem body "message" = inr message ->
  KazooRequest._handle_error body
  = raise (KazooApiError fmt_api request_id message).
Proof.
  intros He Hnot Hno Hr Hm. unfold KazooRequest._handle_error.
  rewrite He, bind_lift_inr.
  destruct (getitem_dict _ _ _ He) as [Hc _].
  assert (Hbad : (if py_eq_str code "400" then lift (contains body "data")
                  else ret false) = ret false).
  { destruct (py_eq_str code "400"); [|reflexivity].
    rewrite Hc. simpl in Hnot. rewrite Hnot. reflexivity. }
  rewrite Hbad, bind_ret, bind_lift_inr, Hno, Hr, bind_lift_inr, Hm, bind_lift_inr.
  reflexivity.
Qed.

Lemma handle_500_outcome (resp : raw_response) (request_id : string) (body : pyval) :
  response_header resp "X-Request-Id" = inr request_id ->
  json resp = Some body ->
  KazooRequest._handle_500_error resp
  = if truthy body
    then match getitem body "data" with
         | inl e => raise e
         | inr d => raise (KazooApiError fmt_500 (PyStr request_id) d)
         end
    else raise (KazooApiError fmt_500 (PyStr request_id)
                              (PyStr "There was no error message")).
Proof.
  intros Hh Hj. unfold KazooRequest._handle_500_error, response_json.
  rewrite Hh, bind_lift_inr, Hj, bind_lift_inr.
  destruct (truthy body); [|reflexivity].
  rewrite bind_lift_inr. destruct (getitem body "data"); reflexivity.
Qed.

Lemma received_500 (resp : raw_response) :
  status_code resp = 500%Z ->
  outcome (received resp)
  = match outcome (KazooRequest._handle_500_error resp) with
    | inl e => inl e
    | inr _ => outcome (received resp)
    end.
Proof.
  intros H. unfold received. rewrite H. simpl Z.eqb. cbv iota.
  destruct (KazooRequest._handle_500_error resp) as [t [e|[]]]; reflexivity.
Qed.

End ResponseFacts.

Lemma sample_response_of (status : Z) (hdrs : list (string * string))
      (body : option pyval) :
  @response_of (Sample.answering status hdrs body) pyval
    (Sample.get_account (Sample.answering status hdrs body))
    {| status_code := status; headers := list_to_map hdrs;
       content := ""; json := body |}.
Proof.
  exists "get", "https://kazoo.test/accounts/42",
    (KazooRequest._get_headers Sample.account (Some "tok")), None, None.
  split; [|reflexivity].
  destruct (execute_stages (R := Sample.answering status hdrs body)
              Sample.account Sample.base None PyNone (Some "tok") None Sample.named)
    as [(_ & e & _ & _ & Hgood) | [(url & _ & Hno & _) | (url & _ & _ & Hu & _ & Hr)]].
  - exfalso. destruct (Hgood eq_refl) as [(Hbad & _) | Hbad]; discriminate.
  - discriminate.
  - injection Hu as <-. cbv zeta in Hr.
    unfold Sample.get_account. rewrite Hr. right. left. reflexivity.
Defined.

(** C5.  When the response of a call has a status other than 500 and its
    decoded body has a [status] field that is not ["error"], [execute]
    returns that decoded body as it is. *)
Theorem success_returns_body {R : Runtime}
  (self : KazooRequest.t) (base_url : string) (method_arg : option string)
  (data : pyval) (token : option string) (files : option pyfiles)
  (kwargs : gmap string string) (resp : raw_response) (body status : pyval) :
  response_of (KazooRequest.execute self base_url method_arg data token files kwargs)
              resp ->
  status_code resp <> 500%Z ->
  json resp = Some body ->
  getitem body "status" = inr status ->
  py_eq_str status "error" = false ->
  outcome (KazooRequest.execute self base_url method_arg data token files kwargs)
  = inr body.
Proof.
  intros Hresp H500 Hj Hs Hne.
  rewrite (execute_received _ _ _ _ _ _ _ _ Hresp).
  rewrite (received_body _ _ _ H500 Hj Hs), Hne. reflexivity.
Qed.

Lemma success_returns_body_witness :
  outcome (Sample.get_account (Sample.answering 200 [] (Some Sample.success)))
  = inr Sample.success.
Proof.
  apply (@success_returns_body (Sample.answering 200 [] (Some Sample.success))
           Sample.account Sample.base None PyNone (Some "tok") None Sample.named
           _ Sample.success (PyStr "success")
           (sample_response_of 200 [] (Some Sample.success)));
    [discriminate | reflexivity | reflexivity | reflexivity].
Defined.

(** C8.  When the response has a status other than 500 and its decoded
    body has status ["error"] and error code ["401"], [execute] raises
    [KazooApiAuthenticationError] with the message [Invalid credentials],
    whatever else the body holds. *)
Theorem error_401_is_authentication_error {R : Runtime}
  (self : KazooRequest.t) (base_url : string) (method_arg : option string)
  (data : pyval) (token : option string) (files : option pyfiles)
  (kwargs : gmap string string) (resp : raw_response) (body : pyval) :
  response_of (KazooRequest.execute self base_url method_arg data token files kwargs)
              resp ->
  status_code resp <> 500%Z ->
  json resp = Some body ->
  getitem body "status" = inr (PyStr "error") ->
  getitem body "error" = inr (PyStr "401") ->
  outcome (KazooRequest.execute self base_url method_arg data token files kwargs)
  = inl (KazooApiAuthenticationError "Invalid credentials").
Proof.
  intros Hresp H500 Hj Hs He.
  rewrite (execute_received _ _ _ _ _ _ _ _ Hresp).
  rewrite (received_body _ _ _ H500 Hj Hs), (handle_error_401 _ He).
  reflexivity.
Qed.

Lemma error_401_is_authentication_error_witness :
  outcome (Sample.get_account (Sample.answering 401 [] (Some Sample.error_401)))
  = inl (KazooApiAuthenticationError "Invalid credentials").
Proof.
  apply (@error_401_is_authentication_error
           (Sample.answering 401 [] (Some Sample.error_401))
           Sample.account Sample.base None PyNone (Some "tok") None Sample.named
           _ Sample.error_401
           (sample_response_of 401 [] (Some Sample.error_401)));
    [discriminate | reflexivity | reflexivity | reflexivity].
Defined.

(** C9, as stated, fails: an error body with a code other than 400 and 401
    that has no [request_id] field ends the call with a [KeyError], not
    with the generic API error. *)
Lemma error_without_request_id_counterexample :
  let run := Sample.get_account (Sample.answering 404 [] (Some Sample.error_bare)) in
  getitem Sample.error_bare "status" = inr (PyStr "error")
  /\ getitem Sample.error_bare "error" = inr (PyStr "404")
  /\ outcome run = inl (KeyError "request_id")
  /\ forall fmt request_id message,
       outcome run <> inl (KazooApiError fmt request_id message).
Proof.
  cbv zeta. split; [reflexivity|]. split; [reflexivity|].
  split; [vm_compute; reflexivity|].
  intros fmt request_id message. vm_compute. discriminate.
Qed.

(** C9, amended.  When the response has a status other than 500 and its
    decoded body has status ["error"]: with error code ["400"] and a
    [data] field, [execute] raises [KazooApiBadDataError] carrying that
    data; with any code that is neither ["400"] with a [data] field nor
    ["401"], and with both a [request_id] and a [message] field in the
    body, it raises [KazooApiError] carrying those two. *)
Theorem error_400_and_generic {R : Runtime}
  (self : KazooRequest.t) (base_url : string) (method_arg : option string)
  (data : pyval) (token : option string) (files : option pyfiles)
  (kwargs : gmap string string) (resp : raw_response) (body code : pyval) :
  response_of (KazooRequest.execute self base_url method_arg data token files kwargs)
              resp ->
  status_code resp <> 500%Z ->
  json resp = Some body ->
  getitem body "status" = inr (PyStr "error") ->
  getitem body "error" = inr code ->
  (forall d,
      code = PyStr "400" -> getitem body "data" = inr d ->
      outcome (KazooRequest.execute self base_url method_arg data token files kwargs)
      = inl (KazooApiBadDataError d))
  /\ (forall request_id message,
         py_eq_str code "400" && has_field body "data" = false ->
         py_eq_str code "401" = false ->
         getitem body "request_id" = inr request_id ->
         getitem body "message" = inr message ->
         outcome (KazooRequest.execute self base_url method_arg data token files kwargs)
         = inl (KazooApiError fmt_api request_id message)).
Proof.
  intros Hresp H500 Hj Hs He.
  rewrite (execute_received _ _ _ _ _ _ _ _ Hresp).
  rewrite (received_body _ _ _ H500 Hj Hs). split.
  - intros d -> Hd. rewrite (handle_error_400 _ _ He Hd). reflexivity.
  - intros request_id message Hnot Hno Hr Hm.
    rewrite (handle_error_other _ _ _ _ He Hnot Hno Hr Hm). reflexivity.
Qed.

Lemma error_400_and_generic_witness :
  outcome (Sample.get_account (Sample.answering 400 [] (Some Sample.error_400)))
  = inl (KazooApiBadDataError (PyDict [("field", PyStr "bad")]))
  /\ outcome (Sample.get_account (Sample.answering 404 [] (Some Sample.error_404)))
     = inl (KazooApiError fmt_api (PyStr "r2") (PyStr "not found")).
Proof.
  split.
  - apply (proj1 (@error_400_and_generic
             (Sample.answering 400 [] (Some Sample.error_400))
             Sample.account Sample.base None PyNone (Some "tok") None Sample.named
             _ Sample.error_400 (PyStr "400")
             (sample_response_of 400 [] (Some Sample.error_400))
             ltac:(discriminate) eq_refl eq_refl eq_refl));
      reflexivity.
  - apply (proj2 (@error_400_and_generic
             (Sample.answering 404 [] (Some Sample.error_404))
             Sample.account Sample.base None PyNone (Some "tok") None Sample.named
             _ Sample.error_404 (PyStr "404")
             (sample_response_of 404 [] (Some Sample.error_404))
             ltac:(discriminate) eq_refl eq_refl eq_refl));
      reflexivity.
Defined.

(** C10.  When the response has a status other than 500, the [status]
    field of the decoded body is read in any case: for a body that decodes
    but has no such field, [execute] ends with the lookup error of that
    read, a [KeyError] for a JSON object and a [TypeError] for any other
    JSON value, which is none of the five error kinds; the body is not
    returned. *)
Theorem missing_status_is_lookup_error {R : Runtime}
  (self : KazooRequest.t) (base_url : string) (method_arg : option string)
  (data : pyval) (token : option string) (files : option pyfiles)
  (kwargs : gmap string string) (resp : raw_response) (body : pyval) :
  response_of (KazooRequest.execute self base_url method_arg data token files kwargs)
              resp ->
  status_code resp <> 500%Z ->
  json resp = Some body ->
  has_field body "status" = false ->
  let e := match body with PyDict _ => KeyError "status" | _ => TypeError end in
  outcome (KazooRequest.execute self base_url method_arg data token files kwargs)
  = inl e
  /\ typed_error e = false.
Proof.
  intros Hresp H500 Hj Hs e.
  rewrite (execute_received _ _ _ _ _ _ _ _ Hresp).
  rewrite (received_not_500 _ H500). unfold response_json.
  rewrite Hj, bind_lift_inr, (getitem_failure _ _ Hs).
  split; [reflexivity|]. subst e. destruct body; reflexivity.
Qed.

Lemma missing_status_is_lookup_error_witness :
  outcome (Sample.get_account (Sample.answering 200 [] (Some Sample.no_status)))
  = inl (KeyError "status")
  /\ typed_error (KeyError "status") = false.
Proof.
  apply (@missing_status_is_lookup_error
           (Sample.answering 200 [] (Some Sample.no_status))
           Sample.account Sample.base None PyNone (Some "tok") None Sample.named
           _ Sample.no_status
           (sample_response_of 200 [] (Some Sample.no_status)));
    [discriminate | reflexivity | reflexivity].
Defined.

(** C2, as stated, fails: on a 500 response whose body does not decode as
    JSON, the call ends with the decoding error, not with the generic API
    error and its placeholder message. *)
Lemma undecodable_500_counterexample :
  let run := Sample.get_account
               (Sample.answering 500 [("x-request-id", "abc123")] None) in
  outcome run = inl JSONDecodeError
  /\ forall fmt request_id message,
       outcome run <> inl (KazooApiError fmt request_id message).
Proof.
  cbv zeta. split; [vm_compute; reflexivity|].
  intros fmt request_id message. vm_compute. discriminate.
Qed.

(** C2, amended.  When the response has status 500, carries the header
    [X-Request-Id] and has a body that decodes as JSON, [execute] raises
    [KazooApiError] carrying the header's value as request id and, as
    message, the [data] field of the decoded body when it has one, or the
    text [There was no error message] when the decoded body is empty in
    Python's sense ([null], [false], zero, or an empty string, array or
    object).  Nothing else of the response decides the outcome. *)
Theorem error_500_is_generic {R : Runtime}
  (self : KazooRequest.t) (base_url : string) (method_arg : option string)
  (data : pyval) (token : option string) (files : option pyfiles)
  (kwargs : gmap string string) (resp : raw_response)
  (request_id : string) (body : pyval) :
  response_of (KazooRequest.execute self base_url method_arg data token files kwargs)
              resp ->
  status_code resp = 500%Z ->
  response_header resp "X-Request-Id" = inr request_id ->
  json resp = Some body ->
  (forall d,
      getitem body "data" = inr d ->
      outcome (KazooRequest.execute self base_url method_arg data token files kwargs)
      = inl (KazooApiError fmt_500 (PyStr request_id) d))
  /\ (truthy body = false ->
      outcome (KazooRequest.execute self base_url method_arg data token files kwargs)
      = inl (KazooApiError fmt_500 (PyStr request_id)
                           (PyStr "There was no error message"))).
Proof.
  intros Hresp H500 Hh Hj.
  rewrite (execute_received _ _ _ _ _ _ _ _ Hresp).
  rewrite (received_500 _ H500), (handle_500_outcome _ _ _ Hh Hj). split.
  - intros d Hd. destruct (getitem_dict _ _ _ Hd) as [_ ->].
    rewrite Hd. reflexivity.
  - intros ->. reflexivity.
Qed.

Lemma error_500_is_generic_witness :
  outcome (Sample.get_account
             (Sample.answering 500 [("x-request-id", "abc123")] (Some Sample.oops)))
  = inl (KazooApiError fmt_500 (PyStr "abc123") (PyStr "oops"))
  /\ outcome (Sample.get_account
                (Sample.answering 500 [("x-request-id", "abc123")] (Some (PyDict []))))
     = inl (KazooApiError fmt_500 (PyStr "abc123")
                          (PyStr "There was no error message")).
Proof.
  split.
  - apply (proj1 (@error_500_is_generic
             (Sample.answering 500 [("x-request-id", "abc123")] (Some Sample.oops))
             Sample.account Sample.base None PyNone (Some "tok") None Sample.named
             _ "abc123" Sample.oops
             (sample_response_of 500 [("x-request-id", "abc123")] (Some Sample.oops))
             eq_refl eq_refl eq_refl)).
    reflexivity.
  - apply (proj2 (@error_500_is_generic
             (Sample.answering 500 [("x-request-id", "abc123")] (Some (PyDict [])))
             Sample.account Sample.base None PyNone (Some "tok") None Sample.named
             _ "abc123" (PyDict [])
             (sample_response_of 500 [("x-request-id", "abc123")] (Some (PyDict [])))
             eq_refl eq_refl eq_refl)).
    reflexivity.
Defined.

(* ===================================================================== *)
(** ** [str.format] on templates cut into segments *)
(* ===================================================================== *)

Module FormatFacts2.
Import PyStr Format Template.

Lemma append_assoc (a b c : string) : ((a ++ b) ++ c = a ++ (b ++ c))%string.
Proof.
  induction a as [|x a IH]; [reflexivity|].
  change (String x ((a ++ b) ++ c)%string = String x (a ++ (b ++ c))%string).
  now rewrite IH.
Qed.

Lemma emit_text_empty (X : option (result string)) : emit_text "" X = X.
Proof. destruct X as [[e|s]|]; reflexivity. Qed.

Lemma emit_text_app (a b : string) (X : option (result string)) :
  emit_text a (emit_text b X) = emit_text (a ++ b)%string X.
Proof.
  destruct X as [[e|s]|]; try reflexivity.
  unfold emit_text. now rewrite append_assoc.
Qed.

Section Run.
Variable args : list string.
Variable kwargs : gmap string string.

(** Literal text is copied. *)
Lemma run_text (t : string) :
  forall num rest,
    is_text t = true ->
    run args kwargs Text num (chars t ++ rest)
    = emit_text t (run args kwargs Text num rest).
Proof.
  induction t as [|c t IH]; intros num rest Ht.
  - symmetry. apply emit_text_empty.
  - unfold is_text in Ht. simpl in Ht. apply andb_prop in Ht as [Hc Ht].
    unfold is_brace in Hc. apply negb_true_iff, orb_false_elim in Hc as [Hl Hr].
    change (chars (String c t) ++ rest) with (c :: (chars t ++ rest)).
    cbn [run]. rewrite Hl, Hr, (IH num rest Ht), emit_text_app. reflexivity.
Qed.

(** A field name is read up to its closing brace and then looked up. *)
Lemma run_name (cs : list ascii) :
  forall acc num rest,
    forallb is_name_char cs = true ->
    run args kwargs (Name acc) num (cs ++ rbrace :: rest)
    = match field (rev acc ++ cs) num args kwargs with
      | None => None
      | Some (inl e) => Some (inl e)
      | Some (inr (v, num')) => emit_text v (run args kwargs Text num' rest)
      end.
Proof.
  induction cs as [|c cs IH]; intros acc num rest Hcs.
  - rewrite app_nil_r. reflexivity.
  - simpl in Hcs. apply andb_prop in Hcs as [Hc Hcs].
    unfold is_name_char, is_brace in Hc.
    apply andb_prop in Hc as [Hb Hrich].
    apply negb_true_iff, orb_false_elim in Hb as [Hl Hr].
    apply negb_true_iff in Hrich.
    change ((c :: cs) ++ rbrace :: rest) with (c :: (cs ++ rbrace :: rest)).
    cbn [run]. rewrite Hr, Hl, Hrich, (IH (c :: acc) num rest Hcs).
    simpl rev. rewrite <- app_assoc. reflexivity.
Qed.

Lemma run_field (cs : list ascii) (num : numbering) (rest : list ascii) :
  forallb is_name_char cs = true ->
  run args kwargs Text num (lbrace :: cs ++ rbrace :: rest)
  = match field cs num args kwargs with
    | None => None
    | Some (inl e) => Some (inl e)
    | Some (inr (v, num')) => emit_text v (run args kwargs Text num' rest)
    end.
Proof.
  intros Hcs. destruct cs as [|c cs].
  - reflexivity.
  - simpl in Hcs. apply andb_prop in Hcs as [Hc Hcs].
    unfold is_name_char, is_brace in Hc.
    apply andb_prop in Hc as [Hb Hrich].
    apply negb_true_iff, orb_false_elim in Hb as [Hl Hr].
    apply negb_true_iff in Hrich.
    change (lbrace :: (c :: cs) ++ rbrace :: rest)
      with (lbrace :: c :: (cs ++ rbrace :: rest)).
    cbn [run]. rewrite Ascii.eqb_refl. rewrite Hl, Hr, Hrich.
    apply (run_name cs [c] num rest Hcs).
Qed.

Lemma chars_nonempty (n : string) :
  String.eqb n EmptyString = false -> exists c cs, chars n = c :: cs.
Proof. destruct n as [|c n]; [discriminate|]. intros _. now exists c, (chars n). Qed.


(** An index with nothing at its position fails. *)
Lemma field_index (n : string) :
  is_index n = true ->
  nth_error args (index_of (chars n)) = None ->
  field (chars n) NoIndex args kwargs = Some (inl IndexError).
Proof.
  unfold is_index. intros H Hnth.
  apply andb_prop in H as [H Hlen]. apply andb_prop in H as [Hne Hd].
  apply negb_true_iff in Hne.
  destruct (chars_nonempty n Hne) as (c & cs & E).
  assert (Hl : (18 <? length (chars n))%nat = false).
  { apply Nat.ltb_ge. apply Nat.leb_le in Hlen.
    replace (length (chars n)) with (String.length n); [exact Hlen|].
    clear. induction n as [|x n IH]; [reflexivity|]. simpl. now rewrite IH. }
  unfold field. rewrite E in *. rewrite Hd, Hl.
  unfold positional. rewrite Hnth. reflexivity.
Qed.


End Run.

End FormatFacts2.

(* ===================================================================== *)
(** ** The parameter pattern on templates cut into segments *)
(* ===================================================================== *)

Module TemplateFacts.
Import PyStr ParamRegex ParamRegexFacts Template.

Lemma match_here_other (c : ascii) (l : list ascii) :
  Ascii.eqb c lbrace = false -> match_here (c :: l) = None.
Proof. intros H. unfold match_here. now rewrite H. Qed.

(** Characters other than an opening brace are passed over. *)
Lemma findall_pass (cs rest : list ascii) :
  forallb (fun c => negb (Ascii.eqb c lbrace)) cs = true ->
  findall_from 0 (cs ++ rest) = findall_from 0 rest.
Proof.
  induction cs as [|c cs IH]; intros H; [reflexivity|].
  simpl in H. apply andb_prop in H as [Hc H]. apply negb_true_iff in Hc.
  change ((c :: cs) ++ rest) with (c :: (cs ++ rest)).
  rewrite (findall_no_match _ _ (match_here_other c _ Hc)). now apply IH.
Qed.

Lemma no_brace_split (a b : list ascii) :
  forall r r',
    forallb (fun c => negb (Ascii.eqb c rbrace)) a = true ->
    forallb (fun c => negb (Ascii.eqb c rbrace)) b = true ->
    a ++ rbrace :: r = b ++ rbrace :: r' -> a = b.
Proof.
  revert b. induction a as [|x a IH]; intros [|y b] r r' Ha Hb E; simpl in *.
  - reflexivity.
  - injection E as <- _. rewrite Ascii.eqb_refl in Hb. discriminate.
  - injection E as -> _. rewrite Ascii.eqb_refl in Ha. discriminate.
  - injection E as -> E.
    apply andb_prop in Ha as [_ Ha]. apply andb_prop in Hb as [_ Hb].
    now rewrite (IH b r r' Ha Hb E).
Qed.

Lemma no_brace_weaken (P : ascii -> bool) (d : ascii) (cs : list ascii) :
  (forall c, P c = true -> Ascii.eqb c d = false) ->
  forallb P cs = true ->
  forallb (fun c => negb (Ascii.eqb c d)) cs = true.
Proof.
  intros HP. induction cs as [|c cs IH]; simpl; [reflexivity|].
  intros H. apply andb_prop in H as [Hc H].
  now rewrite (HP c Hc), (IH H).
Qed.

Lemma name_char_not_brace (c : ascii) :
  is_name_char c = true ->
  Ascii.eqb c lbrace = false /\ Ascii.eqb c rbrace = false.
Proof.
  unfold is_name_char, is_brace. intros H. apply andb_prop in H as [H _].
  now apply negb_true_iff, orb_false_elim in H.
Qed.

Lemma param_char_not_rbrace (c : ascii) :
  is_param_char c = true -> Ascii.eqb c rbrace = false.
Proof.
  intros H. destruct (Ascii.eqb_spec c rbrace) as [->|]; [|reflexivity].
  rewrite (proj2 brace_not_param_char) in H. discriminate.
Qed.

Lemma is_word_chars (n : string) :
  is_word n = true <-> word (chars n).
Proof.
  unfold is_word, word. split.
  - intros H. apply andb_prop in H as [Hne Hw]. split; [|assumption].
    destruct n; [discriminate | discriminate].
  - intros [Hne Hw]. rewrite Hw. destruct n; [now destruct Hne | reflexivity].
Qed.

(** A field whose name is a word is captured; a field whose name is not
    is passed over. *)
Lemma findall_field (n : string) (rest : list ascii) :
  forallb is_name_char (chars n) = true ->
  findall_from 0 (lbrace :: chars n ++ rbrace :: rest)
  = if is_word n then chars n :: findall_from 0 rest else findall_from 0 rest.
Proof.
  intros Hn. destruct (is_word n) eqn:Hw.
  - apply is_word_chars in Hw as [Hne Hw]. now apply findall_match.
  - assert (Hno : match_here (lbrace :: chars n ++ rbrace :: rest) = None).
    { destruct (match_here (lbrace :: chars n ++ rbrace :: rest))
        as [[w k]|] eqn:E; [|reflexivity].
      apply match_here_some in E as ((r & E) & Hne & Hww & _).
      injection E as E.
      assert (chars n = w) as <-.
      { apply (no_brace_split _ _ _ _
                 (no_brace_weaken _ _ _ (fun c H => proj2 (name_char_not_brace c H)) Hn)
                 (no_brace_weaken _ _ _ param_char_not_rbrace Hww) E). }
      assert (is_word n = true) by (apply is_word_chars; split; assumption).
      congruence. }
    rewrite (findall_no_match _ _ Hno).
    rewrite (findall_pass (chars n) _
               (no_brace_weaken _ _ _ (fun c H => proj1 (name_char_not_brace c H)) Hn)).
    apply findall_no_match, match_here_other. reflexivity.
Qed.

Lemma findall_segments (segs : list segment) :
  forallb well_formed segs = true ->
  findall_from 0 (chars (render segs))
  = map chars (List.filter is_word (params segs)).
Proof.
  induction segs as [|[t|n] segs IH]; intros Hwf.
  - reflexivity.
  - simpl in Hwf. apply andb_prop in Hwf as [Ht Hwf].
    simpl render. simpl piece. rewrite chars_app, findall_pass; [now apply IH|].
    unfold is_text in Ht. revert Ht. apply no_brace_weaken.
    intros c Hc. unfold is_brace in Hc.
    now apply negb_true_iff, orb_false_elim in Hc as [Hc _].
  - simpl in Hwf. apply andb_prop in Hwf as [Hk Hwf].
    assert (Hcs : forallb is_name_char (chars n) = true).
    { unfold is_keyword in Hk. apply andb_prop in Hk as [Hk _].
      now apply andb_prop in Hk as [_ Hk]. }
    simpl render. simpl piece. rewrite !chars_app, <- !app_assoc.
    change (chars "{" ++ chars n ++ chars "}" ++ chars (render segs))
      with (lbrace :: chars n ++ rbrace :: chars (render segs)).
    rewrite (findall_field n _ Hcs), (IH Hwf).
    simpl params. simpl List.filter. destruct (is_word n); reflexivity.
Qed.


End TemplateFacts.

(** X1.  For a template made of brace-free text and named fields, the
    required parameter names are the field names that consist of letters,
    digits and underscores, in the order of the template and as often as
    they occur; a field with any other character in its name is not
    required. *)
Theorem required_params_of_segments (segs : list Template.segment) :
  forallb Template.well_formed segs = true ->
  _get_params_from_path (Template.render segs)
  = List.filter Template.is_word (Template.params segs).
Proof.
  intros Hwf. unfold _get_params_from_path, ParamRegex.findall.
  rewrite (TemplateFacts.findall_segments segs Hwf), map_map.
  rewrite <- (map_id (List.filter Template.is_word (Template.params segs))) at 2.
  apply map_ext. intros n. apply ParamRegexFacts.of_chars_chars.
Qed.

Lemma required_params_of_segments_witness :
  _get_params_from_path "/accounts/{account_id}/{a-b}/users/{account_id}"
  = ["account_id"; "account_id"].
Proof.
  apply (required_params_of_segments
           [Template.Lit "/accounts/"; Template.Param "account_id";
            Template.Lit "/"; Template.Param "a-b"; Template.Lit "/users/";
            Template.Param "account_id"]).
  reflexivity.
Defined.

(* ===================================================================== *)
(** ** Building the URL and sending the request *)
(* ===================================================================== *)

Lemma lower_case_method_valid (m : string) :
  str_in m http_methods = true -> valid_method m = true.
Proof.
  unfold str_in, http_methods. simpl existsb. intros H.
  repeat (apply orb_prop in H as [H | H];
          [apply String.eqb_eq in H; subst m; reflexivity|]).
  discriminate.
Qed.

Section SendFacts.
Context {R : Runtime}.
Import KazooRequest.

Variables (self : t) (base_url : string) (method_arg : option string)
          (data : pyval) (token : option string) (files : option pyfiles)
          (kwargs : gmap string string).

Let run : M pyval := execute self base_url method_arg data token files kwargs.
Let m : string := resolved_method self method_arg.

Lemma required_supplied :
  (forall n, In n (_required_param_names self) -> kwargs !! n <> None) ->
  check_required (_required_param_names self) kwargs = ret tt.
Proof. apply check_required_ok. Qed.

(** With a valid method and all required names given, a failure to build
    the URL ends the call before anything is logged or sent. *)
Lemma execute_url_failure (e : exn) :
  valid_method m = true ->
  check_required (_required_param_names self) kwargs = ret tt ->
  _get_url self kwargs base_url = inl e ->
  run = raise e.
Proof.
  intros Hv Hc Hu.
  destruct (execute_stages self base_url method_arg data token files kwargs)
    as [(Ht & e' & He & _ & Hgood) | [(url & _ & _ & Hr) | (url & _ & _ & Hu' & _)]].
  - destruct (Hgood Hv) as [(Hu' & _) | Hc'].
    + fold m in Hu'. rewrite Hu in Hu'. injection Hu' as <-.
      fold run in Ht, He. destruct run as [tr o].
      unfold trace, outcome in *. simpl in *. now subst.
    + rewrite Hc in Hc'. discriminate.
  - exfalso. revert Hr. unfold execute.
    change (match method_arg with None => method self | Some m0 => m0 end) with m.
    change (str_in (PyStr.lower m) http_methods) with (valid_method m).
    rewrite Hv. cbn [negb]. rewrite bind_ret, Hc, bind_ret, Hu. discriminate.
  - rewrite Hu in Hu'. discriminate.
Qed.

(** With a valid method, all required names given and a URL built, the
    call is logged and then stops at the lookup of the request function or
    sends one request. *)
Lemma execute_after_url (url : string) :
  valid_method m = true ->
  check_required (_required_param_names self) kwargs = ret tt ->
  _get_url self kwargs base_url = inr url ->
  run = if str_in m http_methods
        then (EvDebug "Making %s request to url %s" [m; url]
              :: EvRequest m url (_get_headers self token)
                           (sent_data data) (sent_files files)
              :: trace (bind (lift (requests_call m url (_get_headers self token)
                                      (sent_data data) (sent_files files)))
                             received),
              outcome (bind (lift (requests_call m url (_get_headers self token)
                                     (sent_data data) (sent_files files)))
                            received))
        else ([EvDebug "Making %s request to url %s" [m; url]],
              inl (AttributeError m)).
Proof.
  intros Hv Hc Hu. subst run. unfold execute.
  change (match method_arg with None => method self | Some m0 => m0 end) with m.
  change (str_in (PyStr.lower m) http_methods) with (valid_method m).
  rewrite Hv. cbn [negb].
  rewrite bind_ret, Hc, bind_ret, Hu, bind_lift_inr, bind_emit.
  unfold getattr_requests. destruct (str_in m http_methods).
  - rewrite bind_lift_inr, bind_emit. reflexivity.
  - reflexivity.
Qed.

Lemma execute_sends_once (url : string) :
  str_in m http_methods = true ->
  check_required (_required_param_names self) kwargs = ret tt ->
  _get_url self kwargs base_url = inr url ->
  network_calls run
  = [EvRequest m url (_get_headers self token) (sent_data data) (sent_files files)].
Proof.
  intros Hm Hc Hu.
  rewrite (execute_after_url url (lower_case_method_valid _ Hm) Hc Hu), Hm.
  unfold network_calls at 1. unfold trace at 1.
  change (fst (?a, ?b)) with a. simpl List.filter.
  f_equal. apply after_call_silent.
Qed.

End SendFacts.

Section UrlFacts.
Context {R : Runtime}.
Import KazooRequest.

Lemma get_url_suffix (self : t) (params : gmap string string)
      (base_url replaced : string) :
  _get_url_with_variables_replaced self params = inr replaced ->
  _get_url self params base_url
  = inr (base_url ++ replaced ++ query_suffix self)%string.
Proof.
  intros H. unfold _get_url, query_suffix. rewrite H.
  destruct (get_params self) as [[|q qs]|].
  - now rewrite append_empty.
  - now rewrite FormatFacts2.append_assoc.
  - now rewrite append_empty.
Qed.


End UrlFacts.





(** X4.  Every request [execute] sends has the header [Content-Type] with
    the value [application/json]; it has the header [X-Auth-Token] exactly
    when the descriptor requires authentication, with the token the caller
    gave, or none if the caller gave none; it has no other header. *)
Theorem request_headers {R : Runtime}
  (self : KazooRequest.t) (base_url : string) (method_arg : option string)
  (data : pyval) (token : option string) (files : option pyfiles)
  (kwargs : gmap string string)
  (verb url : string) (hdrs : gmap string (option string))
  (body : option string) (sent : option pyfiles) :
  In (EvRequest verb url hdrs body sent)
     (trace (KazooRequest.execute self base_url method_arg data token files kwargs)) ->
  hdrs !! "Content-Type" = Some (Some "application/json")
  /\ hdrs !! "X-Auth-Token"
     = (if KazooRequest.auth_required self then Some token else None)
  /\ forall name, name <> "Content-Type" -> name <> "X-Auth-Token" ->
                  hdrs !! name = None.
Proof.
  intros Hin.
  destruct (execute_sent self base_url method_arg data token files kwargs
              _ _ _ _ _ Hin) as (_ & _ & _ & _ & _ & -> & _).
  unfold KazooRequest._get_headers.
  destruct (KazooRequest.auth_required self).
  - split; [|split].
    + rewrite lookup_insert_ne by discriminate. apply lookup_singleton_eq.
    + apply lookup_insert_eq.
    + intros name H1 H2.
      rewrite lookup_insert_ne by congruence.
      apply lookup_singleton_ne. congruence.
  - split; [|split].
    + apply lookup_singleton_eq.
    + apply lookup_singleton_ne. discriminate.
    + intros name H1 _. apply lookup_singleton_ne. congruence.
Qed.

Lemma request_headers_witness :
  (KazooRequest._get_headers Sample.account (Some "tok")) !! "X-Auth-Token"
  = (if KazooRequest.auth_required Sample.account then Some (Some "tok") else None).
Proof.
  apply (@request_headers (Sample.answering 200 [] (Some Sample.success))
           Sample.account Sample.base None PyNone (Some "tok") None Sample.named
           "get" "https://kazoo.test/accounts/42"
           (KazooRequest._get_headers Sample.account (Some "tok")) None None).
  vm_compute. right. left. reflexivity.
Defined.

(** X5.  A call sends at most one request, and a request that is sent
    comes right after the debug line that logs its method and URL, at the
    head of the trace. *)
Theorem one_request_after_its_log {R : Runtime}
  (self : KazooRequest.t) (base_url : string) (method_arg : option string)
  (data : pyval) (token : option string) (files : option pyfiles)
  (kwargs : gmap string string) :
  length (network_calls
            (KazooRequest.execute self base_url method_arg data token files kwargs))
  <= 1
  /\ forall verb url hdrs body sent,
       In (EvRequest verb url hdrs body sent)
          (trace (KazooRequest.execute self base_url method_arg data token files kwargs)) ->
       exists rest,
         trace (KazooRequest.execute self base_url method_arg data token files kwargs)
         = EvDebug "Making %s request to url %s" [verb; url]
           :: EvRequest verb url hdrs body sent :: rest
         /\ List.filter is_request rest = [].
Proof.
  destruct (execute_stages self base_url method_arg data token files kwargs)
    as [(Ht & _) | [(url & _ & _ & Hr) | (url & _ & _ & _ & _ & Hr)]].
  - unfold network_calls. rewrite Ht. split; [simpl; lia|]. intros ? ? ? ? ? [].
  - unfold network_calls. rewrite Hr. split; [simpl; lia|].
    intros ? ? ? ? ? [H | []]. discriminate.
  - cbv zeta in Hr. rewrite Hr. unfold network_calls.
    pose proof (after_call_silent
                  (requests_call (resolved_method self method_arg) url
                     (KazooRequest._get_headers self token)
                     (sent_data data) (sent_files files))) as Hs.
    unfold network_calls in Hs.
    set (rest := trace (bind (lift (requests_call (resolved_method self method_arg) url
                                      (KazooRequest._get_headers self token)
                                      (sent_data data) (sent_files files)))
                             received)) in *.
    clearbody rest. unfold trace. cbn [fst].
    split.
    + simpl List.filter. rewrite Hs. simpl. lia.
    + intros verb u h b f [H | [H | H]].
      * discriminate.
      * injection H as <- <- <- <- <-. exists rest. split; [reflexivity | exact Hs].
      * exfalso.
        assert (Hf : In (EvRequest verb u h b f) []).
        { rewrite <- Hs. apply filter_In. split; [exact H | reflexivity]. }
        destruct Hf.
Qed.

(** X6.  A method that passes the check only after lower-casing (such as
    [GET] or [Post]) is not sent: once the required names are given and the
    URL is built and logged, the lookup of the request function fails with
    an [AttributeError] naming the method as given, and no request goes
    out. *)
Theorem mixed_case_method_fails {R : Runtime}
  (self : KazooRequest.t) (base_url : string) (method_arg : option string)
  (data : pyval) (token : option string) (files : option pyfiles)
  (kwargs : gmap string string) (url : string) :
  let m := resolved_method self method_arg in
  valid_method m = true ->
  str_in m http_methods = false ->
  (forall n, In n (KazooRequest._required_param_names self) -> kwargs !! n <> None) ->
  KazooRequest._get_url self kwargs base_url = inr url ->
  KazooRequest.execute self base_url method_arg data token files kwargs
  = ([EvDebug "Making %s request to url %s" [m; url]], inl (AttributeError m)).
Proof.
  intros m Hv Hm Hall Hu.
  rewrite (execute_after_url self base_url method_arg data token files kwargs url
             Hv (check_required_ok _ _ Hall) Hu).
  fold m. now rewrite Hm.
Qed.

Lemma mixed_case_method_fails_witness :
  @KazooRequest.execute (Sample.answering 200 [] (Some Sample.success))
    Sample.account Sample.base (Some "Post") PyNone (Some "tok") None Sample.named
  = ([EvDebug "Making %s request to url %s"
              ["Post"; "https://kazoo.test/accounts/42"]],
     inl (AttributeError "Post")).
Proof.
  apply (@mixed_case_method_fails (Sample.answering 200 [] (Some Sample.success))
           Sample.account Sample.base (Some "Post") PyNone (Some "tok") None
           Sample.named "https://kazoo.test/accounts/42").
  - reflexivity.
  - reflexivity.
  - intros n [<- | []]. vm_compute. discriminate.
  - vm_compute. reflexivity.
Defined.

(** X7.  When the transport raises instead of answering, [execute] ends
    with that same exception. *)
Theorem transport_failure_propagates {R : Runtime}
  (self : KazooRequest.t) (base_url : string) (method_arg : option string)
  (data : pyval) (token : option string) (files : option pyfiles)
  (kwargs : gmap string string)
  (verb url : string) (hdrs : gmap string (option string))
  (body : option string) (sent : option pyfiles) (e : exn) :
  In (EvRequest verb url hdrs body sent)
     (trace (KazooRequest.execute self base_url method_arg data token files kwargs)) ->
  requests_call verb url hdrs body sent = inl e ->
  outcome (KazooRequest.execute self base_url method_arg data token files kwargs)
  = inl e.
Proof.
  intros Hin Hcall.
  destruct (execute_sent self base_url method_arg data token files kwargs
              _ _ _ _ _ Hin) as (_ & _ & _ & _ & _ & _ & _ & _ & _ & Ho).
  rewrite Ho, Hcall. reflexivity.
Qed.

Lemma transport_failure_propagates_witness :
  outcome (Sample.get_account
             (Stub.runtime (inl (RequestException "connection refused"))))
  = inl (RequestException "connection refused").
Proof.
  apply (@transport_failure_propagates
           (Stub.runtime (inl (RequestException "connection refused")))
           Sample.account Sample.base None PyNone (Some "tok") None Sample.named
           "get" "https://kazoo.test/accounts/42"
           (KazooRequest._get_headers Sample.account (Some "tok")) None None).
  - vm_compute. right. left. reflexivity.
  - reflexivity.
Defined.

(* ===================================================================== *)
(** ** What a call can end with *)
(* ===================================================================== *)

Section OutcomeFacts.
Context {R : Runtime}.
Import KazooRequest.

Lemma getitem_error_untyped (v : pyval) (key : string) (e : exn) :
  getitem v key = inl e -> typed_error e = false.
Proof.
  destruct v as [| | | | | |items]; simpl; try (intros [= <-]; reflexivity).
  destruct (dict_get items key); [discriminate|]. intros [= <-]. reflexivity.
Qed.

(** The handler of a 500 response raises on every path. *)
Lemma handle_500_raises (resp : raw_response) :
  exists e,
    _handle_500_error resp = raise e
    /\ (typed_error e = true ->
        exists request_id message,
          e = KazooApiError fmt_500 (PyStr request_id) message).
Proof.
  unfold _handle_500_error.
  destruct (response_header resp "X-Request-Id") as [e|rid] eqn:Hh.
  - exists e. split; [reflexivity|].
    unfold response_header in Hh.
    destruct (headers resp !! PyStr.lower "X-Request-Id"); [discriminate|].
    injection Hh as <-. discriminate.
  - rewrite bind_lift_inr. unfold response_json.
    destruct (json resp) as [body|].
    + rewrite bind_lift_inr. destruct (truthy body).
      * rewrite bind_lift_inr. destruct (getitem body "data") as [e|d] eqn:Hd.
        -- exists e. split; [reflexivity|].
           rewrite (getitem_error_untyped _ _ _ Hd). discriminate.
        -- rewrite bind_lift_inr. eexists. split; [reflexivity|]. eauto.
      * rewrite bind_ret. eexists. split; [reflexivity|]. eauto.
    + exists JSONDecodeError. split; [reflexivity | discriminate].
Qed.

Ltac raised := eexists; reflexivity.

Ltac generic_raised :=
  rewrite bind_lift_inr;
  destruct (py_eq_str _ "401"); [raised|];
  destruct (getitem _ "request_id"); [raised|]; rewrite bind_lift_inr;
  destruct (getitem _ "message"); [raised|]; rewrite bind_lift_inr;
  raised.

(** The handler of an error body raises on every path. *)
Lemma handle_error_raises (body : pyval) :
  exists e, outcome (_handle_error body) = inl e.
Proof.
  unfold _handle_error.
  destruct (getitem body "error") as [e|code]; [raised|].
  rewrite bind_lift_inr.
  destruct (py_eq_str code "400").
  - destruct (contains body "data") as [e|[|]]; [raised | |].
    + rewrite bind_lift_inr.
      destruct (getitem body "data"); [raised|]. rewrite bind_lift_inr. raised.
    + rewrite bind_lift_inr. generic_raised.
  - rewrite bind_ret. generic_raised.
Qed.

Variables (self : t) (base_url : string) (method_arg : option string)
          (data : pyval) (token : option string) (files : option pyfiles)
          (kwargs : gmap string string).

Let run : M pyval := execute self base_url method_arg data token files kwargs.

(** The whole run of a call that received a response. *)
Lemma execute_with_response (resp : raw_response) :
  response_of run resp ->
  exists verb url hdrs body sent,
    run = (EvDebug "Making %s request to url %s" [verb; url]
           :: EvRequest verb url hdrs body sent
           :: trace (received resp),
           outcome (received resp)).
Proof.
  intros (verb & u & h & b & f & Hin & Hcall).
  destruct (execute_sent self base_url method_arg data token files kwargs
              _ _ _ _ _ Hin) as (Hv & Hc & Hu & -> & Hm & -> & -> & -> & _).
  exists (resolved_method self method_arg), u, (_get_headers self token),
    (sent_data data), (sent_files files).
  subst run.
  rewrite (execute_after_url self base_url method_arg data token files kwargs u
             Hv Hc Hu), Hm, Hcall, bind_lift_inr.
  reflexivity.
Qed.

(** A call that returns a value received a response. *)
Lemma returned_has_response (v : pyval) :
  outcome run = inr v ->
  exists resp, response_of run resp /\ outcome (received resp) = inr v.
Proof.
  intros Ho.
  destruct (execute_stages self base_url method_arg data token files kwargs)
    as [(_ & e & He & _) | [(url & _ & _ & Hr) | (url & _ & _ & _ & _ & Hr)]].
  - fold run in He. congruence.
  - fold run in Hr. rewrite Hr in Ho. discriminate.
  - cbv zeta in Hr. fold run in Hr.
    destruct (requests_call (resolved_method self method_arg) url
                (_get_headers self token) (sent_data data) (sent_files files))
      as [e|resp] eqn:Hcall.
    + rewrite Hr in Ho. discriminate.
    + exists resp. split.
      * exists (resolved_method self method_arg), url, (_get_headers self token),
          (sent_data data), (sent_files files).
        split; [|exact Hcall]. rewrite Hr. right. left. reflexivity.
      * rewrite Hr, bind_lift_inr in Ho. exact Ho.
Qed.

End OutcomeFacts.

(** X8.  A response with status 500 never makes [execute] return: the call
    ends with an exception, and the only one of the library's own errors it
    can end with is [KazooApiError] with the internal-server-error text;
    what the body says about status and error code is not looked at. *)
Theorem status_500_always_raises {R : Runtime}
  (self : KazooRequest.t) (base_url : string) (method_arg : option string)
  (data : pyval) (token : option string) (files : option pyfiles)
  (kwargs : gmap string string) (resp : raw_response) :
  response_of (KazooRequest.execute self base_url method_arg data token files kwargs)
              resp ->
  status_code resp = 500%Z ->
  exists e,
    outcome (KazooRequest.execute self base_url method_arg data token files kwargs)
    = inl e
    /\ (typed_error e = true ->
        exists request_id message,
          e = KazooApiError fmt_500 (PyStr request_id) message).
Proof.
  intros Hresp H500.
  rewrite (execute_received _ _ _ _ _ _ _ _ Hresp), (received_500 _ H500).
  destruct (handle_500_raises resp) as (e & -> & He).
  exists e. split; [reflexivity | exact He].
Qed.

Lemma status_500_always_raises_witness :
  exists e,
    outcome (Sample.get_account
               (Sample.answering 500 [("x-request-id", "abc123")]
                  (Some Sample.error_401)))
    = inl e
    /\ (typed_error e = true ->
        exists request_id message,
          e = KazooApiError fmt_500 (PyStr request_id) message).
Proof.
  apply (@status_500_always_raises
           (Sample.answering 500 [("x-request-id", "abc123")] (Some Sample.error_401))
           Sample.account Sample.base None PyNone (Some "tok") None Sample.named
           _ (sample_response_of 500 [("x-request-id", "abc123")]
                (Some Sample.error_401))).
  reflexivity.
Defined.

(** X9.  A response with a status other than 500 whose decoded body has
    status ["error"] never makes [execute] return: the call ends with an
    exception, after a debug line with the raw content of the response. *)
Theorem error_status_always_raises {R : Runtime}
  (self : KazooRequest.t) (base_url : string) (method_arg : option string)
  (data : pyval) (token : option string) (files : option pyfiles)
  (kwargs : gmap string string) (resp : raw_response) (body : pyval) :
  response_of (KazooRequest.execute self base_url method_arg data token files kwargs)
              resp ->
  status_code resp <> 500%Z ->
  json resp = Some body ->
  getitem body "status" = inr (PyStr "error") ->
  (exists e,
      outcome (KazooRequest.execute self base_url method_arg data token files kwargs)
      = inl e)
  /\ In (EvDebug "There was an error, full error text is: %s" [content resp])
        (trace (KazooRequest.execute self base_url method_arg data token files kwargs)).
Proof.
  intros Hresp H500 Hj Hs. split.
  - rewrite (execute_received _ _ _ _ _ _ _ _ Hresp).
    rewrite (received_body _ _ _ H500 Hj Hs).
    destruct (handle_error_raises body) as (e & ->). eauto.
  - destruct (execute_with_response _ _ _ _ _ _ _ _ Hresp)
      as (verb & url & hdrs & b & f & ->).
    right. right. rewrite (received_not_500 _ H500).
    unfold response_json. rewrite Hj, bind_lift_inr, Hs, bind_lift_inr.
    change (py_eq_str (PyStr "error") "error") with true. cbv iota.
    rewrite !bind_assoc, bind_emit. left. reflexivity.
Qed.

Lemma error_status_always_raises_witness :
  (exists e,
      outcome (Sample.get_account (Sample.answering 200 [] (Some Sample.error_bare)))
      = inl e)
  /\ In (EvDebug "There was an error, full error text is: %s" [""])
        (trace (Sample.get_account (Sample.answering 200 [] (Some Sample.error_bare)))).
Proof.
  apply (@error_status_always_raises
           (Sample.answering 200 [] (Some Sample.error_bare))
           Sample.account Sample.base None PyNone (Some "tok") None Sample.named
           _ Sample.error_bare
           (sample_response_of 200 [] (Some Sample.error_bare)));
    [discriminate | reflexivity | reflexivity].
Defined.

(** X10.  Whatever [execute] returns is the decoded body of the response
    it received, and that response had a status other than 500 and a body
    with a [status] field that is not ["error"]. *)
Theorem returned_value_is_success_body {R : Runtime}
  (self : KazooRequest.t) (base_url : string) (method_arg : option string)
  (data : pyval) (token : option string) (files : option pyfiles)
  (kwargs : gmap string string) (v : pyval) :
  outcome (KazooRequest.execute self base_url method_arg data token files kwargs)
  = inr v ->
  exists resp status,
    response_of (KazooRequest.execute self base_url method_arg data token files kwargs)
                resp
    /\ status_code resp <> 500%Z
    /\ json resp = Some v
    /\ getitem v "status" = inr status
    /\ py_eq_str status "error" = false.
Proof.
  intros Ho.
  destruct (returned_has_response _ _ _ _ _ _ _ _ Ho) as (resp & Hresp & Hrec).
  destruct (Z.eq_dec (status_code resp) 500%Z) as [H500 | H500].
  - rewrite (received_500 _ H500) in Hrec.
    destruct (handle_500_raises resp) as (e & He & _).
    rewrite He in Hrec. discriminate.
  - destruct (json resp) as [body|] eqn:Hj.
    + destruct (getitem body "status") as [e|status] eqn:Hs.
      * rewrite (received_not_500 _ H500) in Hrec. unfold response_json in Hrec.
        rewrite Hj, bind_lift_inr, Hs in Hrec. discriminate.
      * rewrite (received_body _ _ _ H500 Hj Hs) in Hrec.
        destruct (py_eq_str status "error") eqn:Hne.
        -- destruct (handle_error_raises body) as (e & He).
           rewrite He in Hrec. discriminate.
        -- injection Hrec as ->. exists resp, status. auto.
    + rewrite (received_not_500 _ H500) in Hrec. unfold response_json in Hrec.
      rewrite Hj in Hrec. discriminate.
Qed.

Lemma returned_value_is_success_body_witness :
  exists resp status,
    @response_of (Sample.answering 200 [] (Some Sample.success)) pyval
      (Sample.get_account (Sample.answering 200 [] (Some Sample.success))) resp
    /\ status_code resp <> 500%Z
    /\ json resp = Some Sample.success
    /\ getitem Sample.success "status" = inr status
    /\ py_eq_str status "error" = false.
Proof.
  apply (@returned_value_is_success_body
           (Sample.answering 200 [] (Some Sample.success))
           Sample.account Sample.base None PyNone (Some "tok") None Sample.named
           Sample.success).
  vm_compute. reflexivity.
Defined.

(** X11.  When the body of a response with a status other than 500 does
    not decode as JSON, [execute] ends with the decoding error. *)
Theorem undecodable_body_raises {R : Runtime}
  (self : KazooRequest.t) (base_url : string) (method_arg : option string)
  (data : pyval) (token : option string) (files : option pyfiles)
  (kwargs : gmap string string) (resp : raw_response) :
  response_of (KazooRequest.execute self base_url method_arg data token files kwargs)
              resp ->
  status_code resp <> 500%Z ->
  json resp = None ->
  outcome (KazooRequest.execute self base_url method_arg data token files kwargs)
  = inl JSONDecodeError.
Proof.
  intros Hresp H500 Hj.
  rewrite (execute_received _ _ _ _ _ _ _ _ Hresp), (received_not_500 _ H500).
  unfold response_json. rewrite Hj. reflexivity.
Qed.

Lemma undecodable_body_raises_witness :
  outcome (Sample.get_account (Sample.answering 502 [] None))
  = inl JSONDecodeError.
Proof.
  apply (@undecodable_body_raises (Sample.answering 502 [] None)
           Sample.account Sample.base None PyNone (Some "tok") None Sample.named
           _ (sample_response_of 502 [] None));
    [discriminate | reflexivity].
Defined.

(** X12.  A response with status 500 and no [X-Request-Id] header makes
    [execute] end with the [KeyError] of the header lookup, whatever the
    body is. *)
Theorem status_500_without_request_id {R : Runtime}
  (self : KazooRequest.t) (base_url : string) (method_arg : option string)
  (data : pyval) (token : option string) (files : option pyfiles)
  (kwargs : gmap string string) (resp : raw_response) :
  response_of (KazooRequest.execute self base_url method_arg data token files kwargs)
              resp ->
  status_code resp = 500%Z ->
  headers resp !! "x-request-id" = None ->
  outcome (KazooRequest.execute self base_url method_arg data token files kwargs)
  = inl (KeyError "x-request-id").
Proof.
  intros Hresp H500 Hh.
  rewrite (execute_received _ _ _ _ _ _ _ _ Hresp), (received_500 _ H500).
  unfold KazooRequest._handle_500_error, response_header.
  change (PyStr.lower "X-Request-Id") with "x-request-id".
  rewrite Hh. reflexivity.
Qed.

Lemma status_500_without_request_id_witness :
  outcome (Sample.get_account (Sample.answering 500 [] (Some Sample.oops)))
  = inl (KeyError "x-request-id").
Proof.
  apply (@status_500_without_request_id
           (Sample.answering 500 [] (Some Sample.oops))
           Sample.account Sample.base None PyNone (Some "tok") None Sample.named
           _ (sample_response_of 500 [] (Some Sample.oops)));
    reflexivity.
Defined.

(** X13.  An error body without an [error] field makes [execute] end with
    the [KeyError] of that lookup. *)
Theorem error_body_without_code {R : Runtime}
  (self : KazooRequest.t) (base_url : string) (method_arg : option string)
  (data : pyval) (token : option string) (files : option pyfiles)
  (kwargs : gmap string string) (resp : raw_response) (body : pyval) :
  response_of (KazooRequest.execute self base_url method_arg data token files kwargs)
              resp ->
  status_code resp <> 500%Z ->
  json resp = Some body ->
  getitem body "status" = inr (PyStr "error") ->
  has_field body "error" = false ->
  outcome (KazooRequest.execute self base_url method_arg data token files kwargs)
  = inl (KeyError "error").
Proof.
  intros Hresp H500 Hj Hs He.
  rewrite (execute_received _ _ _ _ _ _ _ _ Hresp).
  rewrite (received_body _ _ _ H500 Hj Hs).
  change (py_eq_str (PyStr "error") "error") with true. cbv iota.
  unfold KazooRequest._handle_error. rewrite (getitem_failure _ _ He).
  destruct body; try discriminate. reflexivity.
Qed.

Lemma error_body_without_code_witness :
  outcome (Sample.get_account
             (Sample.answering 200 [] (Some (PyDict [("status", PyStr "error")]))))
  = inl (KeyError "error").
Proof.
  apply (@error_body_without_code
           (Sample.answering 200 [] (Some (PyDict [("status", PyStr "error")])))
           Sample.account Sample.base None PyNone (Some "tok") None Sample.named
           _ (PyDict [("status", PyStr "error")])
           (sample_response_of 200 [] (Some (PyDict [("status", PyStr "error")]))));
    [discriminate | reflexivity | reflexivity | reflexivity].
Defined.

(** X14.  On a response with status 500 and the request-id header, a
    decoded body that is not empty and has no [data] field makes [execute]
    end with the error of the [data] lookup, a [KeyError] for a JSON object
    and a [TypeError] for any other JSON value, not with [KazooApiError]. *)
Theorem status_500_body_without_data {R : Runtime}
  (self : KazooRequest.t) (base_url : string) (method_arg : option string)
  (data : pyval) (token : option string) (files : option pyfiles)
  (kwargs : gmap string string) (resp : raw_response)
  (request_id : string) (body : pyval) :
  response_of (KazooRequest.execute self base_url method_arg data token files kwargs)
              resp ->
  status_code resp = 500%Z ->
  response_header resp "X-Request-Id" = inr request_id ->
  json resp = Some body ->
  truthy body = true ->
  has_field body "data" = false ->
  outcome (KazooRequest.execute self base_url method_arg data token files kwargs)
  = inl (match body with PyDict _ => KeyError "data" | _ => TypeError end).
Proof.
  intros Hresp H500 Hh Hj Ht Hd.
  rewrite (execute_received _ _ _ _ _ _ _ _ Hresp), (received_500 _ H500).
  rewrite (handle_500_outcome _ _ _ Hh Hj), Ht, (getitem_failure _ _ Hd).
  reflexivity.
Qed.

Lemma status_500_body_without_data_witness :
  outcome (Sample.get_account
             (Sample.answering 500 [("x-request-id", "abc123")]
                (Some (PyDict [("message", PyStr "boom")]))))
  = inl (KeyError "data").
Proof.
  apply (@status_500_body_without_data
           (Sample.answering 500 [("x-request-id", "abc123")]
              (Some (PyDict [("message", PyStr "boom")])))
           Sample.account Sample.base None PyNone (Some "tok") None Sample.named
           _ "abc123" (PyDict [("message", PyStr "boom")])
           (sample_response_of 500 [("x-request-id", "abc123")]
              (Some (PyDict [("message", PyStr "boom")]))));
    reflexivity.
Defined.

(* ===================================================================== *)
(** ** The authentication requests *)
(* ===================================================================== *)

(** X15.  The [execute] of an API key request sends exactly one request: a
    PUT to [base_url] followed by [/api_auth], with the content type as its
    only header (no auth token), and with the JSON text of
    [{"data": {"api_key": api_key}}] as its body, whatever the key is. *)
Theorem api_key_request {R : Runtime} (api_key base_url : string) :
  network_calls (ApiKeyAuthRequest.execute (ApiKeyAuthRequest.__init__ api_key)
                                           base_url)
  = [EvRequest "put" (base_url ++ "/api_auth")%string
               {[ "Content-Type" := Some "application/json" ]}
               (Some (json_dumps
                        (PyDict [("data", PyDict [("api_key", PyStr api_key)])])))
               None].
Proof.
  unfold ApiKeyAuthRequest.execute, ApiKeyAuthRequest.__init__.
  simpl ApiKeyAuthRequest.super. simpl ApiKeyAuthRequest.api_key.
  rewrite execute_fixed_path; reflexivity.
Qed.

Module MD5Facts.
Import MD5.
Local Open Scope Z_scope.

Lemma le_bytes_length (n : nat) : forall x, length (le_bytes n x) = n.
Proof. induction n as [|n IH]; intros x; simpl; [reflexivity | now rewrite IH]. Qed.

Lemma le_bytes_range (n : nat) :
  forall x, Forall (fun b => 0 <= b < 256) (le_bytes n x).
Proof.
  induction n as [|n IH]; intros x; simpl; constructor; [|apply IH].
  apply Z.mod_pos_bound. lia.
Qed.

Lemma hex_digit_is_hex (x : Z) : 0 <= x < 16 -> is_hex_char (hex_digit x) = true.
Proof.
  intros H.
  assert (E : x = 0 \/ x = 1 \/ x = 2 \/ x = 3 \/ x = 4 \/ x = 5 \/ x = 6 \/ x = 7
              \/ x = 8 \/ x = 9 \/ x = 10 \/ x = 11 \/ x = 12 \/ x = 13 \/ x = 14
              \/ x = 15) by lia.
  repeat (destruct E as [-> | E]; [reflexivity|]). subst x. reflexivity.
Qed.

Lemma hex_shape (bs : list Z) :
  Forall (fun b => 0 <= b < 256) bs ->
  String.length (hex bs) = (2 * length bs)%nat
  /\ forallb is_hex_char (PyStr.chars (hex bs)) = true.
Proof.
  induction 1 as [|b bs Hb _ [IHl IHc]]; [split; reflexivity|].
  split.
  - simpl. rewrite IHl. lia.
  - change (PyStr.chars (hex (b :: bs)))
      with (hex_digit (b / 16) :: hex_digit (b mod 16) :: PyStr.chars (hex bs)).
    cbn [forallb]. rewrite IHc, !hex_digit_is_hex.
    + reflexivity.
    + apply Z.mod_pos_bound. lia.
    + split; [apply Z.div_pos; lia | apply Z.div_lt_upper_bound; lia].
Qed.

Lemma digest_shape (msg : list Z) :
  length (digest msg) = 16%nat /\ Forall (fun b => 0 <= b < 256) (digest msg).
Proof.
  unfold digest. split.
  - rewrite !length_app, !le_bytes_length. reflexivity.
  - repeat (apply Forall_app; split); apply le_bytes_range.
Qed.

Lemma hexdigest_shape (s : string) :
  String.length (hexdigest s) = 32%nat
  /\ forallb is_hex_char (PyStr.chars (hexdigest s)) = true.
Proof.
  unfold hexdigest.
  destruct (digest_shape (bytes_of s)) as [Hl Hr].
  destruct (hex_shape _ Hr) as [Hl' Hc]. rewrite Hl in Hl'. auto.
Qed.

End MD5Facts.

(** X16.  The hashed credentials of a username and password request are
    always computed, and are 32 lower-case hexadecimal digits, whatever the
    username and the password are. *)
Theorem hashed_credentials_shape {R : Runtime}
  (username password account_name : string) :
  exists digest,
    UsernamePasswordAuthRequest._get_hashed_credentials
      (UsernamePasswordAuthRequest.__init__ username password account_name)
    = inr digest
    /\ String.length digest = 32
    /\ forallb is_hex_char (PyStr.chars digest) = true.
Proof.
  exists (MD5.hexdigest (username ++ ":" ++ password)%string). split.
  - unfold UsernamePasswordAuthRequest._get_hashed_credentials.
    simpl UsernamePasswordAuthRequest.username.
    simpl UsernamePasswordAuthRequest.password.
    now rewrite format_credentials.
  - apply MD5Facts.hexdigest_shape.
Qed.

(* ===================================================================== *)
(** ** Fields the parameter check does not cover *)
(* ===================================================================== *)

Section FieldFacts.
Context {R : Runtime}.
Import Template.

Lemma digit_is_name_char (c : ascii) :
  Format.is_digit c = true -> is_name_char c = true.
Proof.
  destruct c as [[] [] [] [] [] [] [] []]; intros H;
    first [reflexivity | discriminate H].
Qed.

Lemma digits_are_name_chars (cs : list ascii) :
  forallb Format.is_digit cs = true -> forallb is_name_char cs = true.
Proof.
  induction cs as [|c cs IH]; simpl; [reflexivity|].
  intros H. apply andb_prop in H as [Hc H].
  now rewrite (digit_is_name_char c Hc), (IH H).
Qed.

(** Brace-free text and then a field whose lookup fails: the failure is
    that of the whole template, whatever follows the field. *)
Lemma format_field_failure (t n post : string) (kwargs : gmap string string)
      (e : exn) :
  is_text t = true ->
  forallb is_name_char (PyStr.chars n) = true ->
  Format.field (PyStr.chars n) Format.NoIndex [] kwargs = Some (inl e) ->
  str_format (t ++ "{" ++ n ++ "}" ++ post) [] kwargs = inl e.
Proof.
  intros Ht Hn Hf. unfold str_format, Format.plain.
  rewrite !ParamRegexFacts.chars_app.
  change (PyStr.chars "{" ++ PyStr.chars n ++ PyStr.chars "}" ++ PyStr.chars post)
    with (PyStr.lbrace :: PyStr.chars n ++ PyStr.rbrace :: PyStr.chars post).
  rewrite (FormatFacts2.run_text [] kwargs t _ _ Ht).
  rewrite (FormatFacts2.run_field [] kwargs _ _ _ Hn), Hf. reflexivity.
Qed.

Lemma get_url_failure (self : KazooRequest.t) (kwargs : gmap string string)
      (base_url : string) (e : exn) :
  str_format (KazooRequest.path self) [] kwargs = inl e ->
  KazooRequest._get_url self kwargs base_url = inl e.
Proof.
  intros H. unfold KazooRequest._get_url,
    KazooRequest._get_url_with_variables_replaced. now rewrite H.
Qed.

End FieldFacts.

(** X17.  A field whose name is a number is a required parameter that no
    call can satisfy: with a valid method and every required name given,
    also the number itself, building the URL fails with an [IndexError],
    since [str.format] takes the number for a position and [execute] passes
    no positional arguments; nothing is logged or sent. *)
Theorem numeric_field_fails {R : Runtime}
  (t n post : string) (auth_required : bool) (method : string)
  (get_params : option (list (string * string)))
  (base_url : string) (method_arg : option string)
  (data : pyval) (token : option string) (files : option pyfiles)
  (kwargs : gmap string string) :
  let self := KazooRequest.__init__ (t ++ "{" ++ n ++ "}" ++ post)%string
                auth_required method get_params in
  Template.is_text t = true ->
  Template.is_index n = true ->
  valid_method (resolved_method self method_arg) = true ->
  (forall x, In x (KazooRequest._required_param_names self) -> kwargs !! x <> None) ->
  In n (KazooRequest._required_param_names self)
  /\ KazooRequest.execute self base_url method_arg data token files kwargs
     = raise IndexError.
Proof.
  intros self Ht Hn Hv Hall.
  assert (Hd : negb (String.eqb n "") = true
               /\ forallb Format.is_digit (PyStr.chars n) = true).
  { unfold Template.is_index in Hn. apply andb_prop in Hn as [Hn _].
    now apply andb_prop in Hn. }
  destruct Hd as [Hne Hd]. split.
  - apply params_from_path_iff. split; [|split].
    + intros ->. discriminate.
    + clear -Hd. induction (PyStr.chars n) as [|c cs IH]; [reflexivity|].
      simpl in *. apply andb_prop in Hd as [Hc Hd]. rewrite (IH Hd), andb_true_r.
      clear -Hc. destruct c as [[] [] [] [] [] [] [] []];
        first [reflexivity | discriminate Hc].
    + exists t, post. reflexivity.
  - apply execute_url_failure; [exact Hv | now apply check_required_ok |].
    apply get_url_failure. simpl KazooRequest.path.
    apply format_field_failure; [exact Ht | now apply digits_are_name_chars |].
    apply FormatFacts2.field_index; [exact Hn|].
    now destruct (Format.index_of (PyStr.chars n)).
Qed.

Lemma numeric_field_fails_witness :
  In "0" (KazooRequest._required_param_names
            (KazooRequest.__init__ "/accounts/{0}/users" true "get" None))
  /\ @KazooRequest.execute (Sample.answering 200 [] (Some Sample.success))
       (KazooRequest.__init__ "/accounts/{0}/users" true "get" None)
       Sample.base None PyNone (Some "tok") None {[ "0" := "42" ]}
     = raise IndexError.
Proof.
  apply (@numeric_field_fails (Sample.answering 200 [] (Some Sample.success))
           "/accounts/" "0" "/users" true "get" None
           Sample.base None PyNone (Some "tok") None {[ "0" := "42" ]}).
  - reflexivity.
  - reflexivity.
  - reflexivity.
  - intros x [<- | []]. vm_compute. discriminate.
Defined.



(** X19.  Of several missing parameters the one reported is the first in
    the order of the required names, which is the order of the template:
    with a valid method, when all names before [n] are given and [n] is
    not, the call ends with the [ValueError] that names [n]. *)
Theorem first_missing_param_reported {R : Runtime}
  (self : KazooRequest.t) (base_url : string) (method_arg : option string)
  (data : pyval) (token : option string) (files : option pyfiles)
  (kwargs : gmap string string) (before after : list string) (n : string) :
  valid_method (resolved_method self method_arg) = true ->
  KazooRequest._required_param_names self = before ++ n :: after ->
  (forall x, In x before -> kwargs !! x <> None) ->
  kwargs !! n = None ->
  KazooRequest.execute self base_url method_arg data token files kwargs
  = raise (ValueError ("keyword argument " ++ n ++ " is required")%string).
Proof.
  intros Hv Hnames Hbefore Hn.
  assert (Hc : KazooRequest.check_required
                 (KazooRequest._required_param_names self) kwargs
               = raise (ValueError ("keyword argument " ++ n ++ " is required")%string)).
  { rewrite Hnames. clear Hnames.
    induction before as [|b before IH].
    - simpl app. rewrite check_required_cons, Hn. reflexivity.
    - simpl app. rewrite check_required_cons.
      destruct (kwargs !! b) eqn:Hb.
      + apply IH. intros x Hx. apply Hbefore. now right.
      + exfalso. apply (Hbefore b); [now left | exact Hb]. }
  unfold KazooRequest.execute.
  change (match method_arg with
          | None => KazooRequest.method self
          | Some m => m
          end) with (resolved_method self method_arg).
  change (str_in (PyStr.lower (resolved_method self method_arg)) http_methods)
    with (valid_method (resolved_method self method_arg)).
  rewrite Hv. cbn [negb]. rewrite bind_ret, Hc. reflexivity.
Qed.

Lemma first_missing_param_reported_witness :
  @KazooRequest.execute (Sample.answering 200 [] (Some Sample.success))
    (KazooRequest.__init__ "/accounts/{account_id}/users/{user_id}/{device_id}"
       true "get" None)
    Sample.base None PyNone (Some "tok") None Sample.named
  = raise (ValueError "keyword argument user_id is required").
Proof.
  apply (@first_missing_param_reported
           (Sample.answering 200 [] (Some Sample.success))
           (KazooRequest.__init__ "/accounts/{account_id}/users/{user_id}/{device_id}"
              true "get" None)
           Sample.base None PyNone (Some "tok") None Sample.named
           ["account_id"] ["device_id"] "user_id").
  - reflexivity.
  - reflexivity.
  - intros x [<- | []]. vm_compute. discriminate.
  - reflexivity.
Defined.

Section EscapeFacts.
Context {R : Runtime}.
Import Template.

Lemma word_is_text (n : string) : is_word n = true -> is_text n = true.
Proof.
  unfold is_word, is_text. intros H. apply andb_prop in H as [_ H].
  revert H. induction (PyStr.chars n) as [|c cs IH]; [reflexivity|].
  simpl. intros H. apply andb_prop in H as [Hc H]. rewrite (IH H), andb_true_r.
  clear -Hc. destruct c as [[] [] [] [] [] [] [] []];
    first [reflexivity | discriminate Hc].
Qed.

Lemma run_text_end (args : list string) (kwargs : gmap string string)
      (t : string) (num : Format.numbering) :
  is_text t = true ->
  Format.run args kwargs Format.Text num (PyStr.chars t) = Some (inr t).
Proof.
  intros Ht. rewrite <- (app_nil_r (PyStr.chars t)).
  rewrite (FormatFacts2.run_text args kwargs t num [] Ht).
  simpl Format.run. unfold Format.emit_text. now rewrite append_empty.
Qed.

(** Doubled braces around brace-free text format to single braces around
    it; no argument is looked up. *)
Lemma format_escaped (t n t' : string) (args : list string)
      (kwargs : gmap string string) :
  is_text t = true -> is_text n = true -> is_text t' = true ->
  str_format (t ++ "{{" ++ n ++ "}}" ++ t') args kwargs
  = inr (t ++ "{" ++ n ++ "}" ++ t')%string.
Proof.
  intros Ht Hn Ht'. unfold str_format, Format.plain.
  rewrite !ParamRegexFacts.chars_app.
  change (PyStr.chars "{{" ++ PyStr.chars n ++ PyStr.chars "}}" ++ PyStr.chars t')
    with (PyStr.lbrace :: PyStr.lbrace
          :: (PyStr.chars n ++ PyStr.rbrace :: PyStr.rbrace :: PyStr.chars t')).
  rewrite (FormatFacts2.run_text args kwargs t _ _ Ht).
  change (Format.run args kwargs Format.Text Format.NoIndex
            (PyStr.lbrace :: PyStr.lbrace
             :: (PyStr.chars n ++ PyStr.rbrace :: PyStr.rbrace :: PyStr.chars t')))
    with (Format.emit_text "{"
            (Format.run args kwargs Format.Text Format.NoIndex
               (PyStr.chars n ++ PyStr.rbrace :: PyStr.rbrace :: PyStr.chars t'))).
  rewrite (FormatFacts2.run_text args kwargs n _ _ Hn).
  change (Format.run args kwargs Format.Text Format.NoIndex
            (PyStr.rbrace :: PyStr.rbrace :: PyStr.chars t'))
    with (Format.emit_text "}"
            (Format.run args kwargs Format.Text Format.NoIndex (PyStr.chars t'))).
  rewrite (run_text_end args kwargs t' _ Ht'). reflexivity.
Qed.

End EscapeFacts.

(** X20.  A name between doubled braces is a required parameter although
    [str.format] reads the doubled braces as literal ones: the call must
    give the name, and the URL it requests holds the name between single
    braces, not the value given for it. *)
Theorem escaped_braces_still_required {R : Runtime}
  (t n t' : string) (auth_required : bool) (method : string)
  (get_params : option (list (string * string)))
  (base_url : string) (method_arg : option string)
  (data : pyval) (token : option string) (files : option pyfiles)
  (kwargs : gmap string string) :
  let self := KazooRequest.__init__ (t ++ "{{" ++ n ++ "}}" ++ t')%string
                auth_required method get_params in
  let m := resolved_method self method_arg in
  Template.is_text t = true ->
  Template.is_word n = true ->
  Template.is_text t' = true ->
  str_in m http_methods = true ->
  (forall x, In x (KazooRequest._required_param_names self) -> kwargs !! x <> None) ->
  In n (KazooRequest._required_param_names self)
  /\ network_calls
       (KazooRequest.execute self base_url method_arg data token files kwargs)
     = [EvRequest m
          (base_url ++ (t ++ "{" ++ n ++ "}" ++ t') ++ query_suffix self)%string
          (KazooRequest._get_headers self token)
          (sent_data data) (sent_files files)].
Proof.
  intros self m Ht Hn Ht' Hm Hall. split.
  - apply params_from_path_iff.
    apply TemplateFacts.is_word_chars in Hn as [Hne Hw].
    split; [|split].
    + intros ->. now apply Hne.
    + exact Hw.
    + exists (t ++ "{")%string, ("}" ++ t')%string.
      rewrite !FormatFacts2.append_assoc. reflexivity.
  - apply execute_sends_once; [exact Hm | now apply check_required_ok |].
    apply get_url_suffix. unfold KazooRequest._get_url_with_variables_replaced.
    simpl KazooRequest.path.
    apply format_escaped; [exact Ht | now apply word_is_text | exact Ht'].
Qed.

Lemma escaped_braces_still_required_witness :
  In "id" (KazooRequest._required_param_names
             (KazooRequest.__init__ "/search/{{id}}" true "get" None))
  /\ network_calls
       (@KazooRequest.execute (Sample.answering 200 [] (Some Sample.success))
          (KazooRequest.__init__ "/search/{{id}}" true "get" None)
          Sample.base None PyNone (Some "tok") None {[ "id" := "42" ]})
     = [EvRequest "get" "https://kazoo.test/search/{id}"
          (KazooRequest._get_headers Sample.account (Some "tok")) None None].
Proof.
  assert (Hall : forall x,
             In x (KazooRequest._required_param_names
                     (KazooRequest.__init__ "/search/{{id}}" true "get" None)) ->
             ({[ "id" := "42" ]} : gmap string string) !! x <> None).
  { intros x [<- | []]. vm_compute. discriminate. }
  exact (@escaped_braces_still_required
           (Sample.answering 200 [] (Some Sample.success))
           "/search/" "id" "" true "get" None
           Sample.base None PyNone (Some "tok") None {[ "id" := "42" ]}
           eq_refl eq_refl eq_refl eq_refl Hall).
Defined.

(** X21.  A username and password request ends as the answer to its one
    PUT says: the decoded body is returned when the status is not 500 and
    the body's [status] is not ["error"], and an error body with code
    ["401"] raises [KazooApiAuthenticationError]. *)
Theorem user_auth_outcome {R : Runtime}
  (username password account_name base_url : string)
  (resp : raw_response) (body status : pyval) :
  let self := UsernamePasswordAuthRequest.__init__ username password account_name in
  response_of (UsernamePasswordAuthRequest.execute self base_url) resp ->
  status_code resp <> 500%Z ->
  json resp = Some body ->
  getitem body "status" = inr status ->
  (py_eq_str status "error" = false ->
   outcome (UsernamePasswordAuthRequest.execute self base_url) = inr body)
  /\ (py_eq_str status "error" = true ->
      getitem body "error" = inr (PyStr "401") ->
      outcome (UsernamePasswordAuthRequest.execute self base_url)
      = inl (KazooApiAuthenticationError "Invalid credentials")).
Proof.
  intros self. unfold UsernamePasswordAuthRequest.execute.
  assert (Hd : UsernamePasswordAuthRequest._get_hashed_credentials self
               = inr (MD5.hexdigest (username ++ ":" ++ password)%string)).
  { unfold UsernamePasswordAuthRequest._get_hashed_credentials.
    simpl UsernamePasswordAuthRequest.username.
    simpl UsernamePasswordAuthRequest.password.
    now rewrite format_credentials. }
  rewrite Hd, bind_lift_inr. intros Hresp H500 Hj Hs.
  rewrite (execute_received _ _ _ _ _ _ _ _ Hresp).
  rewrite (received_body _ _ _ H500 Hj Hs). split.
  - intros ->. reflexivity.
  - intros -> He. now rewrite (handle_error_401 _ He).
Qed.

Lemma user_auth_outcome_witness :
  outcome (@UsernamePasswordAuthRequest.execute
             (Sample.answering 200 [] (Some Sample.success))
             (UsernamePasswordAuthRequest.__init__ "u" "p" "acme") Sample.base)
  = inr Sample.success.
Proof.
  refine (proj1 (@user_auth_outcome (Sample.answering 200 [] (Some Sample.success))
                   "u" "p" "acme" Sample.base
                   {| status_code := 200; headers := list_to_map [];
                      content := ""; json := Some Sample.success |}
                   Sample.success (PyStr "success") _ _ eq_refl eq_refl) eq_refl).
  - exists "put", "https://kazoo.test/user_auth",
      (KazooRequest._get_headers
         (KazooRequest.__init__ "/user_auth" false "get" None) None),
      (Some (Stub.dumps
               (PyDict [("data",
                  PyDict [("credentials", PyStr "c23f67b65d6550777a4469461ecfb51e");
                          ("account_name", PyStr "acme")])]))),
      None.
    split; [|reflexivity]. vm_compute. right. left. reflexivity.
  - discriminate.
Defined.
